(** * Power Solution: the location service and the ADU and solar sections

    A shallow embedding of [src/services/locationService.ts] and of the two
    React components [ADUSection] and [SolarSection], with the properties the
    specification states about them.

    Layout:
    - [JS]: the part of the JavaScript platform the code relies on (values,
      truthiness, property access, string methods, [parseInt], completions).
    - [Effects]: a small monad for code that throws, logs and sets state.
    - [LocationService]: [detectLocation].
    - [Knowledge]: the regional knowledge table as a JavaScript object.
    - [ADU]: the memoised values and handlers of [ADUSection].
    - [Solar]: the handlers of [SolarSection].
    - [LocationSpec], [ADUSpec], [SolarSpec]: the sentences of the
      specification as propositions, and inputs for the examples.
    - The properties, one section per component. *)

From Stdlib Require Import ZArith String Ascii List Lia SpecFloat.
From Stdlib Require DecimalString.
From stdpp Require Import base option list strings gmap.

Local Open Scope string_scope.
Set Warnings "-register-all".

(** ** The JavaScript platform *)

Module JS.

(** A Number is an IEEE 754 binary64 value. *)
Definition number : Type := spec_float.
Definition prec : Z := 53.
Definition emax : Z := 1024.

Definition NaN : number := S754_nan.
Definition posZero : number := S754_zero false.
Definition negZero : number := S754_zero true.

(** The Number value for a mathematical integer (round to nearest, ties to
    even). *)
Definition of_Z (z : Z) : number := binary_normalize prec emax z 0 false.

Definition isNaN (n : number) : bool :=
  match n with S754_nan => true | _ => false end.

(** ToBoolean on a Number: false for +0, -0 and NaN. *)
Definition number_truthy (n : number) : bool :=
  match n with
  | S754_zero _ | S754_nan => false
  | S754_infinity _ | S754_finite _ _ _ => true
  end.

(** A string is its sequence of code units; the code units used by this
    program stay below 256, one [ascii] each. *)

(** Values that [Response.json()] and [JSON.parse] can produce, and
    [undefined], which reading an absent property gives. *)
Inductive value : Type :=
| VUndefined
| VNull
| VBool (b : bool)
| VNumber (n : number)
| VString (s : string)
| VArray (elems : list value)
| VObject (props : list (string * value)).

Definition ToBoolean (v : value) : bool :=
  match v with
  | VUndefined | VNull => false
  | VBool b => b
  | VNumber n => number_truthy n
  | VString s => negb (String.eqb s EmptyString)
  | VArray _ | VObject _ => true
  end.

(** [a || b] on values. *)
Definition or_else (a b : value) : value := if ToBoolean a then a else b.

(** [a || b] on Numbers. *)
Definition number_or (a b : number) : number := if number_truthy a then a else b.

Definition is_string (v : value) : bool :=
  match v with VString _ => true | _ => false end.

(** What a [throw] carries. *)
Inductive exn : Type :=
| Error (message : string)
| TypeError (message : string)
| SyntaxError (message : string).

(** How the evaluation of an expression ends. *)
Inductive completion (A : Type) : Type :=
| Normal (a : A)
| Throw (e : exn).
Arguments Normal {A} a.
Arguments Throw {A} e.

Definition is_normal {A} (c : completion A) : bool :=
  match c with Normal _ => true | Throw _ => false end.

(** Own property of an object built by the JSON parser. *)
Fixpoint own_property (props : list (string * value)) (k : string) : option value :=
  match props with
  | [] => None
  | (k', v) :: rest => if String.eqb k' k then Some v else own_property rest k
  end.

(** [v.k] for a property name [k] that no built-in prototype defines
    (such as [city], [region_code], [country]): reading it from [null] or
    [undefined] throws a TypeError, a primitive or an array has no such
    property, and an object gives its own property or [undefined]. *)
Definition get_property (v : value) (k : string) : completion value :=
  match v with
  | VUndefined | VNull =>
      Throw (TypeError ("Cannot read properties of null or undefined, reading " ++ k))
  | VObject props => Normal (default VUndefined (own_property props k))
  | VBool _ | VNumber _ | VString _ | VArray _ => Normal VUndefined
  end.

(** Sequencing of completions: the rest runs only after a normal one. *)
Definition and_then {A B} (c : completion A) (k : A -> completion B) : completion B :=
  match c with
  | Normal a => k a
  | Throw e => Throw e
  end.

(** *** String methods *)

(** [s.includes(needle)] *)
Definition includes (s needle : string) : bool :=
  match String.index 0 needle s with
  | Some _ => true
  | None => false
  end.

(** [s.split(sep)] for a separator of one code unit: the pieces between the
    occurrences of [sep], one more than there are occurrences. *)
Fixpoint split (s : string) (sep : ascii) : list string :=
  match s with
  | EmptyString => [EmptyString]
  | String c rest =>
      if Ascii.eqb c sep then EmptyString :: split rest sep
      else match split rest sep with
           | [] => [String c EmptyString]
           | piece :: pieces => String c piece :: pieces
           end
  end.

(** WhiteSpace and LineTerminator code units below 256: TAB, LF, VT, FF, CR,
    SP and NBSP. *)
Definition is_white_space (c : ascii) : bool :=
  let n := N_of_ascii c in
  ((9 <=? n) && (n <=? 13) || (n =? 32) || (n =? 160))%N.

Fixpoint trimStart (s : string) : string :=
  match s with
  | EmptyString => EmptyString
  | String c rest => if is_white_space c then trimStart rest else s
  end.

Fixpoint trimEnd (s : string) : string :=
  match s with
  | EmptyString => EmptyString
  | String c rest =>
      match trimEnd rest with
      | EmptyString => if is_white_space c then EmptyString else String c EmptyString
      | kept => String c kept
      end
  end.

(** [s.trim()] *)
Definition trim (s : string) : string := trimEnd (trimStart s).

(** [s.toUpperCase()] is not needed by the properties below. *)

(** *** parseInt *)

(** The value of a code unit as a digit: 0 to 9, then the letters in either
    case from 10 on. *)
Definition digit_value (c : ascii) : option N :=
  let n := N_of_ascii c in
  if ((48 <=? n) && (n <=? 57))%N then Some (n - 48)%N
  else if ((97 <=? n) && (n <=? 122))%N then Some (n - 87)%N
  else if ((65 <=? n) && (n <=? 90))%N then Some (n - 55)%N
  else None.

(** The longest prefix of [s] made of digits of the radix, as digit values. *)
Fixpoint leading_digits (radix : N) (s : string) : list N :=
  match s with
  | EmptyString => []
  | String c rest =>
      match digit_value c with
      | Some d => if (d <? radix)%N then d :: leading_digits radix rest else []
      | None => []
      end
  end.

Definition digits_value (radix : N) (ds : list N) : N :=
  fold_left (fun acc d => (acc * radix + d)%N) ds 0%N.

(** [parseInt(s)] with no radix argument: skip leading white space, read a
    sign, switch to radix 16 after [0x] or [0X], read the longest run of
    digits; no digit gives NaN, the value zero keeps the sign. *)
Definition parseInt (s : string) : number :=
  let s1 := trimStart s in
  let '(negative, s2) :=
    match s1 with
    | String "-" rest => (true, rest)
    | String "+" rest => (false, rest)
    | _ => (false, s1)
    end in
  let '(radix, s3) :=
    match s2 with
    | String "0" (String "x" rest) => (16%N, rest)
    | String "0" (String "X" rest) => (16%N, rest)
    | _ => (10%N, s2)
    end in
  match leading_digits radix s3 with
  | [] => NaN
  | ds =>
      let mathInt := Z.of_N (digits_value radix ds) in
      if (mathInt =? 0)%Z then S754_zero negative
      else of_Z (if negative then - mathInt else mathInt)
  end.

End JS.
Export JS.

(** ** Effects: exceptions, a log of observable events, component state *)

Module Effects.

Section Eff.
Context {E S : Type}.

Record outcome (A : Type) : Type := Outcome {
  returned : completion A;
  final : S;
  events : list E
}.
Arguments Outcome {A}.
Arguments returned {A}.
Arguments final {A}.
Arguments events {A}.

Definition Eff (A : Type) : Type := S -> outcome A.

Definition ret {A} (a : A) : Eff A := fun s => Outcome (Normal a) s [].

Definition bind {A B} (m : Eff A) (f : A -> Eff B) : Eff B := fun s =>
  match m s with
  | Outcome (Normal a) s1 evs1 =>
      match f a s1 with
      | Outcome r s2 evs2 => Outcome r s2 (evs1 ++ evs2)
      end
  | Outcome (Throw e) s1 evs1 => Outcome (Throw e) s1 evs1
  end.

Definition throw {A} (e : exn) : Eff A := fun s => Outcome (Throw e) s [].

Definition lift {A} (c : completion A) : Eff A := fun s => Outcome c s [].

Definition emit (ev : E) : Eff unit := fun s => Outcome (Normal tt) s [ev].

Definition get : Eff S := fun s => Outcome (Normal s) s [].

Definition modify (f : S -> S) : Eff unit := fun s => Outcome (Normal tt) (f s) [].

(** [try { m } catch (err) { h err }] *)
Definition try_catch {A} (m : Eff A) (h : exn -> Eff A) : Eff A := fun s =>
  match m s with
  | Outcome (Normal a) s1 evs1 => Outcome (Normal a) s1 evs1
  | Outcome (Throw e) s1 evs1 =>
      match h e s1 with
      | Outcome r s2 evs2 => Outcome r s2 (evs1 ++ evs2)
      end
  end.

(** [try { m } finally { fin }]: [fin] runs however [m] ends, and the
    completion of [m] stands unless [fin] itself throws. *)
Definition try_finally {A} (m : Eff A) (fin : Eff unit) : Eff A := fun s =>
  match m s with
  | Outcome r s1 evs1 =>
      match fin s1 with
      | Outcome (Normal _) s2 evs2 => Outcome r s2 (evs1 ++ evs2)
      | Outcome (Throw e) s2 evs2 => Outcome (Throw e) s2 (evs1 ++ evs2)
      end
  end.
End Eff.

Arguments outcome : clear implicits.
Arguments Eff : clear implicits.
Arguments Outcome {E S A}.
Arguments returned {E S A}.
Arguments final {E S A}.
Arguments events {E S A}.

Declare Scope eff_scope.
Delimit Scope eff_scope with eff.
Notation "x <- c1 ;; c2" := (bind c1 (fun x => c2))
  (at level 100, c1 at next level, right associativity) : eff_scope.
Notation "c1 ;; c2" := (bind c1 (fun _ => c2))
  (at level 100, right associativity) : eff_scope.

End Effects.
Export Effects.

(** ** src/services/locationService.ts *)

(** Modelled from the spec: the object a location is carried in
    ([UserLocation] of [types.ts], not among the sources), with the four
    fields [detectLocation] fills.  The interface declares the three text
    fields as strings; [detectLocation] fills them from an untyped payload,
    so at run time they hold values. *)
Record Location (A : Type) : Type := mkLocation {
  city : A;
  region : A;
  country : A;
  isDetected : bool
}.
Arguments mkLocation {A}.
Arguments city {A}.
Arguments region {A}.
Arguments country {A}.
Arguments isDetected {A}.

Abbreviation UserLocation := (Location string).

Module LocationService.

(** What [fetch] resolves to: the [ok] flag and how [response.json()]
    ends. *)
Record Response : Type := mkResponse {
  ok : bool;
  json : completion value
}.

(** The network as the service sees it: how a request to a URL ends. *)
Definition network : Type := string -> completion Response.

Inductive event : Type :=
| Fetch (url : string)
| ConsoleWarn (message : string) (err : exn).

Definition fetch (net : network) (url : string) : Eff event unit Response :=
  (emit (Fetch url) ;; lift (net url))%eff.

Definition fallback : Location value :=
  {| city := VString "St. Catharines";
     region := VString "ON";
     country := VString "Canada";
     isDetected := false |}.

Definition detectLocation (net : network) : Eff event unit (Location value) :=
  try_catch
    (response <- fetch net "https://ipwho.is/" ;;
     (if negb (ok response)
      then throw (Error "Network response was not ok")
      else ret tt) ;;
     data <- lift (json response) ;;
     data_city <- lift (get_property data "city") ;;
     data_region_code <- lift (get_property data "region_code") ;;
     data_country <- lift (get_property data "country") ;;
     ret {| city := or_else data_city (VString "St. Catharines");
            region := or_else data_region_code (VString "ON");
            country := or_else data_country (VString "Canada");
            isDetected := true |})%eff
    (fun err =>
       emit (ConsoleWarn
               "Location detection failed. Defaulting to St. Catharines, ON."
               err) ;;
       ret fallback)%eff.

(** One invocation, from the caller's side. *)
Definition run (net : network) : outcome event unit (Location value) :=
  detectLocation net tt.

Definition is_fetch (ev : event) : bool :=
  match ev with Fetch _ => true | ConsoleWarn _ _ => false end.

(** The HTTP requests an invocation makes. *)
Definition requests (net : network) : list event :=
  List.filter is_fetch (events (run net)).

End LocationService.

(** ** The regional knowledge table ([data/businessKnowledge.ts]) *)

Module Knowledge.

(** Modelled from the spec: the entries of the regional knowledge table,
    "a static mapping from a region code to pricing tiers and a policy URL".
    The file that declares the table is not among the sources; the field
    names are the ones the two components read. *)
Record Tier : Type := mkTier {
  basePrice : string;
  rentalEstimate : string
}.

(** Modelled from the spec: the pricing tiers of a region, one per unit size
    ([aduPricing.studio], [.oneBed], [.twoBed] in the components). *)
Record ADUPricing : Type := mkPricing {
  studio : Tier;
  oneBed : Tier;
  twoBed : Tier
}.

(** Modelled from the spec: an entry of the table, "pricing tiers and a
    policy URL". *)
Record RegionalData : Type := mkRegional {
  aduPricing : ADUPricing;
  policyUrl : string
}.

(** The table is an ordinary object: its own properties are the entries, and
    like every object it inherits the properties of [Object.prototype]. *)
Definition Object_prototype : list string :=
  [ "constructor"; "__defineGetter__"; "__defineSetter__"; "hasOwnProperty";
    "__lookupGetter__"; "__lookupSetter__"; "isPrototypeOf";
    "propertyIsEnumerable"; "toString"; "valueOf"; "__proto__";
    "toLocaleString" ].

Definition inherited (k : string) : bool :=
  existsb (String.eqb k) Object_prototype.

(** What [regionalKnowledge[k]] evaluates to: an entry, a member of
    [Object.prototype] (a function, or the prototype itself for
    [__proto__]: truthy, and without [aduPricing] or [policyUrl]), or
    [undefined]. *)
Inductive property : Type :=
| Entry (d : RegionalData)
| Inherited
| Undefined.

Definition read (table : gmap string RegionalData) (k : string) : property :=
  match table !! k with
  | Some d => Entry d
  | None => if inherited k then Inherited else Undefined
  end.

(** [k in regionalKnowledge] *)
Definition has_property (table : gmap string RegionalData) (k : string) : bool :=
  match read table k with
  | Entry _ | Inherited => true
  | Undefined => false
  end.

(** [location.region in regionalKnowledge ? location.region : 'ON'], the body
    of the [activeRegion] memo of both components. *)
Definition activeRegion (table : gmap string RegionalData) (location : UserLocation) : string :=
  if has_property table (region location) then region location else "ON".

(** [(regionalKnowledge[activeRegion] || regionalKnowledge['Default']).policyUrl],
    the body of the [policyLink] memo of both components; [None] stands for
    [undefined]. *)
Definition policyLink_of (table : gmap string RegionalData) (active : string)
  : completion (option string) :=
  match read table active with
  | Entry d => Normal (Some (policyUrl d))
  | Inherited => Normal None
  | Undefined =>
      match read table "Default" with
      | Entry d => Normal (Some (policyUrl d))
      | Inherited => Normal None
      | Undefined => Throw (TypeError "Cannot read properties of undefined (reading 'policyUrl')")
      end
  end.

(** An example table for evaluating the definitions; its figures are
    placeholders, not the repository's data. *)
Definition sample_table : gmap string RegionalData :=
  <[ "ON" := {| aduPricing :=
                  {| studio := mkTier "$120,000" "$1,600 - $1,900";
                     oneBed := mkTier "$165,000" "$1,900 - $2,300";
                     twoBed := mkTier "$210,000" "$2,400 - $2,900" |};
                policyUrl := "https://www.ontario.ca/page/add-second-unit-your-house" |} ]>
  (<[ "BC" := {| aduPricing :=
                  {| studio := mkTier "$140,000" "$1,800 - $2,200";
                     oneBed := mkTier "$190,000" "$2,200 - $2,700";
                     twoBed := mkTier "$245,000" "$2,800+" |};
                policyUrl := "https://www2.gov.bc.ca/gov/content/housing-tenancy" |} ]> ∅).

End Knowledge.
Export Knowledge.

(** ** ADUSection *)

Module ADU.

(** Modelled from the spec: the [addons] of an [ADUConfig] ([types.ts] is
    not among the sources), with the fields the component initialises. *)
Record Addons : Type := mkAddons {
  energyIndependence : bool;
  smartSecurity : bool;
  carbonNeutral : bool;
  zonalComfort : bool
}.

(** Modelled from the spec: [ADUConfig] of [types.ts], as the initial state
    of the component spells it out. *)
Record ADUConfig : Type := mkConfig {
  size : string;
  intendedUse : string;
  addons : Addons
}.

(** The component's state: one field per [useState]. *)
Record State : Type := mkState {
  config : ADUConfig;
  loading : bool;
  result : value;
  isEnlarged : bool;
  openHighlight : option nat
}.

Definition initial : State :=
  {| config := {| size := "studio";
                  intendedUse := "rental";
                  addons := {| energyIndependence := false;
                               smartSecurity := false;
                               carbonNeutral := false;
                               zonalComfort := false |} |};
     loading := false;
     result := VNull;
     isEnlarged := false;
     openHighlight := None |}.

Definition setConfig (c : ADUConfig) (st : State) : State :=
  {| config := c; loading := loading st; result := result st;
     isEnlarged := isEnlarged st; openHighlight := openHighlight st |}.

Definition setLoading (b : bool) (st : State) : State :=
  {| config := config st; loading := b; result := result st;
     isEnlarged := isEnlarged st; openHighlight := openHighlight st |}.

Definition setResult (r : value) (st : State) : State :=
  {| config := config st; loading := loading st; result := r;
     isEnlarged := isEnlarged st; openHighlight := openHighlight st |}.

Definition setIsEnlarged (b : bool) (st : State) : State :=
  {| config := config st; loading := loading st; result := result st;
     isEnlarged := b; openHighlight := openHighlight st |}.

Definition setOpenHighlight (h : option nat) (st : State) : State :=
  {| config := config st; loading := loading st; result := result st;
     isEnlarged := isEnlarged st; openHighlight := h |}.

(** The arm a [switch (config.size)] selects, by strict equality in the
    order of the [case] labels. *)
Inductive arm : Type := CaseStudio | CaseOneBedroom | CaseTwoBedroom | CaseDefault.

Definition switch_size (s : string) : arm :=
  if String.eqb s "studio" then CaseStudio
  else if String.eqb s "1-bedroom" then CaseOneBedroom
  else if String.eqb s "2-bedroom" then CaseTwoBedroom
  else CaseDefault.

(** [regionalKnowledge[activeRegion].aduPricing]; [None] stands for
    [undefined]. *)
Definition pricing_of (table : gmap string RegionalData) (active : string)
  : completion (option ADUPricing) :=
  match read table active with
  | Entry d => Normal (Some (aduPricing d))
  | Inherited => Normal None
  | Undefined => Throw (TypeError "Cannot read properties of undefined (reading 'aduPricing')")
  end.

(** [pricing.tier]: a TypeError when [pricing] is [undefined]. *)
Definition tier_of (pricing : option ADUPricing) (tier : ADUPricing -> Tier) (name : string)
  : completion Tier :=
  match pricing with
  | Some p => Normal (tier p)
  | None => Throw (TypeError ("Cannot read properties of undefined, reading " ++ name))
  end.

Section Memos.
Variable regionalKnowledge : gmap string RegionalData.
Variable location : UserLocation.

Definition activeRegion : string := Knowledge.activeRegion regionalKnowledge location.

Definition rentalIncome (st : State) : completion string :=
  and_then (pricing_of regionalKnowledge activeRegion) (fun pricing =>
  match switch_size (size (config st)) with
  | CaseStudio => and_then (tier_of pricing studio "studio") (fun t => Normal (rentalEstimate t))
  | CaseOneBedroom => and_then (tier_of pricing oneBed "oneBed") (fun t => Normal (rentalEstimate t))
  | CaseTwoBedroom => and_then (tier_of pricing twoBed "twoBed") (fun t => Normal (rentalEstimate t))
  | CaseDefault => Normal "$0"
  end).

Definition basePrice (st : State) : completion string :=
  and_then (pricing_of regionalKnowledge activeRegion) (fun pricing =>
  match switch_size (size (config st)) with
  | CaseStudio => and_then (tier_of pricing studio "studio") (fun t => Normal (Knowledge.basePrice t))
  | CaseOneBedroom => and_then (tier_of pricing oneBed "oneBed") (fun t => Normal (Knowledge.basePrice t))
  | CaseTwoBedroom => and_then (tier_of pricing twoBed "twoBed") (fun t => Normal (Knowledge.basePrice t))
  | CaseDefault => Normal "$0"
  end).

Definition policyLink : completion (option string) :=
  policyLink_of regionalKnowledge activeRegion.

End Memos.

(** *** Handlers *)

Inductive addon_key : Type :=
| key_energyIndependence | key_smartSecurity | key_carbonNeutral | key_zonalComfort.

(** [{ ...prev.addons, [key]: !prev.addons[key] }] *)
Definition flip (key : addon_key) (a : Addons) : Addons :=
  match key with
  | key_energyIndependence =>
      {| energyIndependence := negb (energyIndependence a); smartSecurity := smartSecurity a;
         carbonNeutral := carbonNeutral a; zonalComfort := zonalComfort a |}
  | key_smartSecurity =>
      {| energyIndependence := energyIndependence a; smartSecurity := negb (smartSecurity a);
         carbonNeutral := carbonNeutral a; zonalComfort := zonalComfort a |}
  | key_carbonNeutral =>
      {| energyIndependence := energyIndependence a; smartSecurity := smartSecurity a;
         carbonNeutral := negb (carbonNeutral a); zonalComfort := zonalComfort a |}
  | key_zonalComfort =>
      {| energyIndependence := energyIndependence a; smartSecurity := smartSecurity a;
         carbonNeutral := carbonNeutral a; zonalComfort := negb (zonalComfort a) |}
  end.

Definition toggleAddon (key : addon_key) (st : State) : State :=
  setConfig {| size := size (config st);
               intendedUse := intendedUse (config st);
               addons := flip key (addons (config st)) |} st.

(** The [id]s of the three "Select Design Framework" buttons and the keys of
    the three add-on buttons, in the order of the arrays that are mapped to
    buttons. *)
Definition sizeButtons : list string := ["studio"; "1-bedroom"; "2-bedroom"].

Definition addonOptions : list addon_key :=
  [key_energyIndependence; key_zonalComfort; key_smartSecurity].

(** [setConfig({ ...config, size: s.id })] *)
Definition selectSize (id : string) (st : State) : State :=
  setConfig {| size := id;
               intendedUse := intendedUse (config st);
               addons := addons (config st) |} st.

Inductive event : Type :=
| GetADUConsultation (config : ADUConfig) (location : UserLocation)
| ConsoleError (err : exn).

(** [getADUConsultation] of [services/geminiService] is not among the
    sources: how a call to it ends is an input of the model. *)
Definition consultant : Type := ADUConfig -> UserLocation -> completion value.

Definition getADUConsultation (service : consultant) (c : ADUConfig) (l : UserLocation)
  : Eff event State value :=
  (emit (GetADUConsultation c l) ;; lift (service c l))%eff.

(** The effect that runs when [config.size] or [config.addons] changes. *)
Definition fetchSpecs (service : consultant) (location : UserLocation) : Eff event State unit :=
  (st <- get ;;
   modify (setLoading true) ;;
   try_finally
     (try_catch
        (res <- getADUConsultation service (config st) location ;;
         modify (setResult res))
        (fun err => emit (ConsoleError err)))
     (modify (setLoading false)))%eff.

(** What the user and the environment can do to the component: click the
    [i]th size button or add-on button, open or close the enlarged image,
    open or close a highlight, and let the effect run against a service. *)
Inductive action : Type :=
| ClickSize (i : nat)
| ClickAddon (i : nat)
| Enlarge (b : bool)
| ClickHighlight (idx : nat)
| RunFetchSpecs (service : consultant) (location : UserLocation).

Definition step (st : State) (a : action) : State :=
  match a with
  | ClickSize i =>
      match sizeButtons !! i with
      | Some id => selectSize id st
      | None => st
      end
  | ClickAddon i =>
      match addonOptions !! i with
      | Some key => toggleAddon key st
      | None => st
      end
  | Enlarge b => setIsEnlarged b st
  | ClickHighlight idx =>
      setOpenHighlight
        (if bool_decide (openHighlight st = Some idx) then None else Some idx) st
  | RunFetchSpecs service location => final (fetchSpecs service location st)
  end.

(** The states the component can be in. *)
Inductive reachable : State -> Prop :=
| reachable_initial : reachable initial
| reachable_step st a : reachable st -> reachable (step st a).

(** *** renderRentalPrice *)

(** Rendered markup: text, or an element with its class and children. *)
Inductive node : Type :=
| Text (s : string)
| Element (tag className : string) (children : list node).

(** [parts[i]], [undefined] when [i] is out of range, followed by [.trim()]. *)
Definition trimmed_part (parts : list string) (i : nat) : completion string :=
  match parts !! i with
  | Some part => Normal (trim part)
  | None => Throw (TypeError "Cannot read properties of undefined (reading 'trim')")
  end.

Definition two_lines (first second : string) : node :=
  Element "div" "text-right flex flex-col items-end"
    [ Element "span" "text-4xl md:text-5xl font-black text-white leading-none mb-1"
        [ Text first; Text " -" ];
      Element "span" "text-4xl md:text-5xl font-black text-white leading-none"
        [ Text second; Text " ";
          Element "span" "text-2xl md:text-3xl" [ Text "CAD" ] ] ].

Definition one_line (price : string) : node :=
  Element "span" "text-4xl md:text-5xl font-black text-white block leading-tight"
    [ Text price; Text " ";
      Element "span" "text-3xl md:text-4xl" [ Text "CAD" ] ].

Definition renderRentalPrice (price : string) : completion node :=
  if includes price "-" then
    let parts := split price "-" in
    and_then (trimmed_part parts 0) (fun first =>
    and_then (trimmed_part parts 1) (fun second =>
    Normal (two_lines first second)))
  else Normal (one_line price).

(** The words of the specification for the two values shown: the text before
    the first dash, and the text between the first dash and the second (or
    the end, when there is no second). *)
Definition before_first_dash (price : string) : string :=
  match String.index 0 "-" price with
  | Some i => String.substring 0 i price
  | None => price
  end.

Definition after_first_dash (price : string) : string :=
  match String.index 0 "-" price with
  | Some i => String.substring (S i) (String.length price - S i) price
  | None => EmptyString
  end.

Definition between_first_and_second_dash (price : string) : string :=
  before_first_dash (after_first_dash price).

End ADU.

(** ** SolarSection *)

Module Solar.

(** Modelled from the spec: [SolarNeeds] of [types.ts] (not among the
    sources), with the fields the component initialises and reads. *)
Record SolarNeeds : Type := mkSolarNeeds {
  monthlyBill : number;
  roofType : string;
  energyPriority : string
}.

(** Modelled from the spec: [CommercialNeeds] of [types.ts], with the fields
    the component initialises and reads. *)
Record CommercialNeeds : Type := mkCommercialNeeds {
  facilityType : string;
  squareFootage : number;
  primaryGoal : string
}.

(** The component's state: one field per [useState]. *)
Record State : Type := mkState {
  mode : string;
  resNeeds : SolarNeeds;
  comNeeds : CommercialNeeds;
  loading : bool;
  result : value
}.

Definition initial : State :=
  {| mode := "residential";
     resNeeds := {| monthlyBill := of_Z 250;
                    roofType := "asphalt-shingle";
                    energyPriority := "savings" |};
     comNeeds := {| facilityType := "industrial";
                    squareFootage := of_Z 15000;
                    primaryGoal := "cost-reduction" |};
     loading := false;
     result := VNull |}.

Definition setMode (m : string) (st : State) : State :=
  {| mode := m; resNeeds := resNeeds st; comNeeds := comNeeds st;
     loading := loading st; result := result st |}.

Definition setResNeeds (n : SolarNeeds) (st : State) : State :=
  {| mode := mode st; resNeeds := n; comNeeds := comNeeds st;
     loading := loading st; result := result st |}.

Definition setComNeeds (n : CommercialNeeds) (st : State) : State :=
  {| mode := mode st; resNeeds := resNeeds st; comNeeds := n;
     loading := loading st; result := result st |}.

Definition setLoading (b : bool) (st : State) : State :=
  {| mode := mode st; resNeeds := resNeeds st; comNeeds := comNeeds st;
     loading := b; result := result st |}.

Definition setResult (r : value) (st : State) : State :=
  {| mode := mode st; resNeeds := resNeeds st; comNeeds := comNeeds st;
     loading := loading st; result := r |}.

(** *** The number inputs *)

(** [setResNeeds({ ...resNeeds, monthlyBill: parseInt(e.target.value) || 0 })] *)
Definition onMonthlyBillChange (text : string) (st : State) : State :=
  setResNeeds {| monthlyBill := number_or (parseInt text) posZero;
                 roofType := roofType (resNeeds st);
                 energyPriority := energyPriority (resNeeds st) |} st.

(** [setComNeeds({ ...comNeeds, squareFootage: parseInt(e.target.value) || 0 })] *)
Definition onSquareFootageChange (text : string) (st : State) : State :=
  setComNeeds {| facilityType := facilityType (comNeeds st);
                 squareFootage := number_or (parseInt text) posZero;
                 primaryGoal := primaryGoal (comNeeds st) |} st.

(** *** The request to the completion endpoint *)

(** The members of [Type] of [@google/genai] that the schema uses. *)
Inductive SchemaType : Type := OBJECT | ARRAY | STRING.

(** A schema literal; [None] is a field the literal leaves out. *)
Inductive Schema : Type :=
| mkSchema (type : SchemaType)
           (properties : option (list (string * Schema)))
           (items : option Schema)
           (required : option (list string)).

Definition type (s : Schema) : SchemaType :=
  match s with mkSchema t _ _ _ => t end.
Definition properties (s : Schema) : option (list (string * Schema)) :=
  match s with mkSchema _ p _ _ => p end.
Definition items (s : Schema) : option Schema :=
  match s with mkSchema _ _ i _ => i end.
Definition required (s : Schema) : option (list string) :=
  match s with mkSchema _ _ _ r => r end.

Record GenerateContentConfig : Type := mkGenConfig {
  responseMimeType : string;
  responseSchema : Schema
}.

Record GenerateContentParameters : Type := mkRequest {
  model : string;
  contents : string;
  config : GenerateContentConfig
}.

(** The response object; its [text] getter gives a string or [undefined]. *)
Record GenerateContentResponse : Type := mkGenResponse {
  text : option string
}.

Definition string_schema : Schema := mkSchema STRING None None None.

Definition responseSchema_literal : Schema :=
  mkSchema OBJECT
    (Some [ ("summary", string_schema);
            ("recommendations", mkSchema ARRAY None (Some string_schema) None);
            ("estimatedCostRange", string_schema);
            ("roiEstimate", string_schema) ])
    None
    (Some ["summary"; "recommendations"; "estimatedCostRange"; "roiEstimate"]).

Definition newline : string := String (ascii_of_nat 10) EmptyString.
Definition quote : string := String (ascii_of_nat 34) EmptyString.

Inductive event : Type :=
| GetSolarConsultation (needs : SolarNeeds) (location : UserLocation)
| GenerateContent (request : GenerateContentParameters)
| ConsoleError (err : exn).

(** [getSolarConsultation] of [services/geminiService] is not among the
    sources, and the completion endpoint is remote: how a call to either ends
    is an input of the model. *)
Definition consultant : Type := SolarNeeds -> UserLocation -> completion value.
Definition endpoint : Type := GenerateContentParameters -> completion GenerateContentResponse.

Definition getSolarConsultation (service : consultant) (n : SolarNeeds) (l : UserLocation)
  : Eff event State value :=
  (emit (GetSolarConsultation n l) ;; lift (service n l))%eff.

Definition generateContent (ai : endpoint) (request : GenerateContentParameters)
  : Eff event State GenerateContentResponse :=
  (emit (GenerateContent request) ;; lift (ai request))%eff.

Section Component.
(** The platform's Number-to-string conversion and JSON parser. *)
Variable Number_toString : number -> string.
Variable JSON_parse : string -> completion value.
Variable regionalKnowledge : gmap string RegionalData.
Variable location : UserLocation.

Definition activeRegion : string := Knowledge.activeRegion regionalKnowledge location.

Definition policyLink : completion (option string) :=
  policyLink_of regionalKnowledge activeRegion.

Definition handleResidentialConsult (service : consultant) : Eff event State unit :=
  (st <- get ;;
   modify (setLoading true) ;;
   try_finally
     (try_catch
        (res <- getSolarConsultation service (resNeeds st) location ;;
         modify (setResult res))
        (fun err => emit (ConsoleError err)))
     (modify (setLoading false)))%eff.

(** The template literal of [handleCommercialConsult]: the fixed text with
    the five interpolated expressions. *)
Definition commercialPrompt (needs : CommercialNeeds) : string :=
  String.concat EmptyString
    [ "Act as an expert Commercial Solar Analyst for Power Solution Canada."; newline;
      "      Location: "; city location; ", "; region location; "."; newline;
      "      Facility: "; facilityType needs; ", ";
      Number_toString (squareFootage needs); " sqft."; newline;
      "      Goal: "; primaryGoal needs; "."; newline;
      "      "; newline;
      "      Generate a professional commercial solar infrastructure brief."; newline;
      "      - 5 high-impact "; quote; "Core Specifications"; quote;
      " (concise, max 12 words each)."; newline;
      "      - Include mentions of Net-metering, industrial-grade panels, and business energy grants.";
      newline;
      "      - Return exactly: summary, recommendations[], estimatedCostRange, and roiEstimate." ].

Definition commercialRequest (needs : CommercialNeeds) : GenerateContentParameters :=
  {| model := "gemini-3-flash-preview";
     contents := commercialPrompt needs;
     config := {| responseMimeType := "application/json";
                  responseSchema := responseSchema_literal |} |}.

(** [JSON.parse(response.text)]: the argument is converted to a string
    first, [undefined] to the text [undefined]. *)
Definition parse_text (response : GenerateContentResponse) : completion value :=
  JSON_parse (default "undefined" (text response)).

Definition handleCommercialConsult (ai : endpoint) : Eff event State unit :=
  (st <- get ;;
   modify (setLoading true) ;;
   try_finally
     (try_catch
        (response <- generateContent ai (commercialRequest (comNeeds st)) ;;
         parsed <- lift (parse_text response) ;;
         modify (setResult parsed))
        (fun err => emit (ConsoleError err)))
     (modify (setLoading false)))%eff.

End Component.

(** The [id]s of the buttons that are built from arrays. *)
Definition modeButtons : list string := ["residential"; "commercial"].
Definition priorityButtons : list string := ["savings"; "independence"].
Definition facilityButtons : list string := ["industrial"; "office"; "retail"; "multi-unit"].

(** What the user and the environment can do to the component. *)
Inductive action : Type :=
| ClickMode (i : nat)
| InputMonthlyBill (text : string)
| InputSquareFootage (text : string)
| ClickPriority (i : nat)
| ClickFacility (i : nat)
| RunResidential (location : UserLocation) (service : consultant)
| RunCommercial (Number_toString : number -> string) (JSON_parse : string -> completion value)
                (location : UserLocation) (ai : endpoint).

Definition step (st : State) (a : action) : State :=
  match a with
  | ClickMode i =>
      match modeButtons !! i with
      | Some m => setResult VNull (setMode m st)
      | None => st
      end
  | InputMonthlyBill text => onMonthlyBillChange text st
  | InputSquareFootage text => onSquareFootageChange text st
  | ClickPriority i =>
      match priorityButtons !! i with
      | Some id =>
          setResNeeds {| monthlyBill := monthlyBill (resNeeds st);
                         roofType := roofType (resNeeds st);
                         energyPriority := id |} st
      | None => st
      end
  | ClickFacility i =>
      match facilityButtons !! i with
      | Some id =>
          setComNeeds {| facilityType := id;
                         squareFootage := squareFootage (comNeeds st);
                         primaryGoal := primaryGoal (comNeeds st) |} st
      | None => st
      end
  | RunResidential location service =>
      final (handleResidentialConsult location service st)
  | RunCommercial toString parse location ai =>
      final (handleCommercialConsult toString parse location ai st)
  end.

Inductive reachable : State -> Prop :=
| reachable_initial : reachable initial
| reachable_step st a : reachable st -> reachable (step st a).

(** The requests to the completion endpoint among logged events. *)
Definition completion_requests (evs : list event) : list GenerateContentParameters :=
  omap (fun ev => match ev with GenerateContent r => Some r | _ => None end) evs.

End Solar.

(** ** What the two sections display besides the prices *)

Module Display.

(** The province named in the funding notice of [ADUSection] and in the
    grant notice of [SolarSection]:
    [location.region === 'ON' ? 'Ontario'
       : (location.region === 'BC' ? 'British Columbia' : location.region)]. *)
Definition regionName (location : UserLocation) : string :=
  if String.eqb (region location) "ON" then "Ontario"
  else if String.eqb (region location) "BC" then "British Columbia"
  else region location.

(** [s.replace(pattern, replacement)] for a pattern that is a string of one
    code unit and a replacement without [$]: the first occurrence of the
    pattern is replaced, the rest of the string is kept. *)
Fixpoint replace (s : string) (pattern : ascii) (replacement : string) : string :=
  match s with
  | EmptyString => EmptyString
  | String c rest =>
      if Ascii.eqb c pattern then replacement ++ rest
      else String c (replace rest pattern replacement)
  end.

(** The label of a facility button: [type.replace('-', ' ')]. *)
Definition facilityLabel (type : string) : string := replace type "-" " ".

(** The right-hand column of [SolarSection], as far as it depends on data:
    the placeholder, or the insight panel with the recommendations, the
    province named in the grant notice, the link of the notice, the region
    after "Explore Grants for", the ROI estimate and the cost range. *)
Inductive panel : Type :=
| Placeholder
| Insight (recommendations : list value) (province : string) (href : option string)
          (grantsFor : string) (roiEstimate estimatedCostRange : value).

(** [recommendations.map(...)]: an array has the method and gives one item
    per element; on [undefined] and [null] reading [map] throws, and on any
    other JSON value [map] is not a function. *)
Definition map_items (recommendations : value) : completion (list value) :=
  match recommendations with
  | VArray elems => Normal elems
  | VUndefined | VNull =>
      Throw (TypeError "Cannot read properties of undefined (reading 'map')")
  | VBool _ | VNumber _ | VString _ | VObject _ =>
      Throw (TypeError "result.recommendations.map is not a function")
  end.

(** One evaluation of the column [{result ? (...) : (...)}], after the
    [policyLink] memo of the component.  What React then does with the items
    and the two estimates as children is outside this definition. *)
Definition resultPanel (regionalKnowledge : gmap string RegionalData)
    (location : UserLocation) (st : Solar.State) : completion panel :=
  and_then (Solar.policyLink regionalKnowledge location) (fun policyLink =>
  if ToBoolean (Solar.result st) then
    and_then (get_property (Solar.result st) "recommendations") (fun recommendations =>
    and_then (map_items recommendations) (fun items =>
    and_then (get_property (Solar.result st) "roiEstimate") (fun roiEstimate =>
    and_then (get_property (Solar.result st) "estimatedCostRange") (fun estimatedCostRange =>
    Normal (Insight items (regionName location) policyLink (region location)
              roiEstimate estimatedCostRange)))))
  else Normal Placeholder).

End Display.

(** * The vocabulary of the specification *)

(** ** The location service *)

Module LocationSpec.
Import LocationService.

(** The call succeeded: the request did not throw, the response was ok and
    its body could be parsed. *)
Definition call_succeeded (net : network) : bool :=
  match net "https://ipwho.is/" with
  | Normal response => ok response && is_normal (json response)
  | Throw _ => false
  end.

(** The parsed body of a call that succeeded. *)
Definition payload (net : network) : option value :=
  match net "https://ipwho.is/" with
  | Normal response =>
      if ok response
      then match json response with Normal data => Some data | Throw _ => None end
      else None
  | Throw _ => None
  end.

Definition nullish (v : value) : bool :=
  match v with VUndefined | VNull => true | _ => false end.

(** [data.k] for a payload that is not [null]. *)
Definition field (data : value) (k : string) : value :=
  match get_property data k with Normal v => v | Throw _ => VUndefined end.

Definition nonempty_string (v : value) : bool :=
  match v with VString s => negb (String.eqb s EmptyString) | _ => false end.

Definition string_or_falsy (v : value) : bool :=
  is_string v || negb (ToBoolean v).

(** The log of an invocation that fell back, and of one that did not. *)
Definition fell_back (e : exn) : outcome event unit (Location value) :=
  Outcome (Normal fallback) tt
    [ Fetch "https://ipwho.is/";
      ConsoleWarn "Location detection failed. Defaulting to St. Catharines, ON." e ].

Definition detected_from (data : value) : outcome event unit (Location value) :=
  Outcome
    (Normal {| city := or_else (field data "city") (VString "St. Catharines");
               region := or_else (field data "region_code") (VString "ON");
               country := or_else (field data "country") (VString "Canada");
               isDetected := true |})
    tt [ Fetch "https://ipwho.is/" ].

(** The sentence on [detectLocation] as the specification words it: one
    request, no rejection, the fallback after each of the three failures, and
    [isDetected] telling whether the call succeeded. *)
Definition as_specified (net : network) : Prop :=
  length (requests net) = 1 /\
  exists loc,
    returned (run net) = Normal loc /\
    (call_succeeded net = false -> loc = fallback) /\
    (isDetected loc = true <-> call_succeeded net = true).

(** The sentence on the substitution of defaults as the specification words
    it: after a call that succeeded, falsy fields are replaced,
    [isDetected] is true, and every field is a non-empty string. *)
Definition substitution_as_specified (net : network) : Prop :=
  forall data, payload net = Some data ->
  exists loc,
    returned (run net) = Normal loc /\
    isDetected loc = true /\
    (ToBoolean (field data "city") = false -> city loc = VString "St. Catharines") /\
    (ToBoolean (field data "region_code") = false -> region loc = VString "ON") /\
    (ToBoolean (field data "country") = false -> country loc = VString "Canada") /\
    nonempty_string (city loc) = true /\
    nonempty_string (region loc) = true /\
    nonempty_string (country loc) = true.

(** The call succeeded with a body from which properties can be read. *)
Definition usable_payload (net : network) : bool :=
  match payload net with
  | Some data => negb (nullish data)
  | None => false
  end.

(** A service that answers [200 OK] with the body [null]. *)
Definition null_body : network :=
  fun _ => Normal {| ok := true; json := Normal VNull |}.

(** A service that answers with the city as a nested object. *)
Definition nested_city : network :=
  fun _ => Normal {| ok := true;
                     json := Normal (VObject
                       [ ("city", VObject [("name", VString "Toronto")]);
                         ("region_code", VString "ON");
                         ("country", VString "Canada") ]) |}.

(** A service that answers with empty fields, and one that is unreachable. *)
Definition empty_fields : network :=
  fun _ => Normal {| ok := true;
                     json := Normal (VObject
                       [ ("success", VBool false);
                         ("city", VString EmptyString);
                         ("region_code", VNull) ]) |}.

Definition unreachable : network :=
  fun _ => Throw (TypeError "Failed to fetch").

End LocationSpec.

(** ** The regional table and the ADU section *)

Module ADUSpec.
Import ADU.

(** The tier a unit size selects: 'studio' the studio tier, '1-bedroom' the
    one-bedroom tier, '2-bedroom' the two-bedroom tier. *)
Definition tier_for (size : string) : option (ADUPricing -> Tier) :=
  if String.eqb size "studio" then Some studio
  else if String.eqb size "1-bedroom" then Some oneBed
  else if String.eqb size "2-bedroom" then Some twoBed
  else None.

(** The sentence on the active region as the specification words it: the
    region of the location when it is a key of the table, 'ON' otherwise. *)
Definition activeRegion_as_specified (table : gmap string RegionalData) (location : UserLocation)
  : Prop :=
  Knowledge.activeRegion table location =
  if bool_decide (is_Some (table !! region location)) then region location else "ON".

(** The sentence on the error branches as the specification words it: the
    active region is always a key of the table and the size one of the three
    literals, so neither a [default] arm nor the 'Default' entry is reached. *)
Definition error_branches_as_specified (table : gmap string RegionalData) : Prop :=
  forall (location : UserLocation) (st : State), reachable st ->
    is_Some (table !! Knowledge.activeRegion table location) /\
    size (config st) ∈ sizeButtons /\
    switch_size (size (config st)) <> CaseDefault /\
    read table (Knowledge.activeRegion table location) <> Undefined.

(** A location whose region is the name of a member of [Object.prototype],
    and one in British Columbia. *)
Definition constructor_location : UserLocation :=
  {| city := "Toronto"; region := "constructor"; country := "Canada"; isDetected := true |}.

Definition vancouver : UserLocation :=
  {| city := "Vancouver"; region := "BC"; country := "Canada"; isDetected := true |}.

End ADUSpec.

(** ** The solar section and the consultations *)

Module SolarSpec.
Import Solar.

(** Every operation has a static fallback, as the specification words it:
    after a failed call the location is the hardcoded one, and the result a
    consultation handler leaves on display is one fixed default. *)
Definition static_fallbacks_as_specified : Prop :=
  (forall net, LocationSpec.call_succeeded net = false ->
     returned (LocationService.run net) = Normal LocationService.fallback) /\
  (exists default : value,
     forall service location st e,
       service (ADU.config st) location = Throw e ->
       ADU.result (final (ADU.fetchSpecs service location st)) = default) /\
  (exists default : value,
     forall location service st e,
       service (resNeeds st) location = Throw e ->
       result (final (handleResidentialConsult location service st)) = default) /\
  (exists default : value,
     forall toString parse location ai st e,
       ai (commercialRequest toString location (comNeeds st)) = Throw e ->
       result (final (handleCommercialConsult toString parse location ai st)) = default).

(** An endpoint that is down, and one that answers with a fixed text. *)
Definition unavailable : endpoint := fun _ => Throw (Error "503 Service Unavailable").

Definition answering (body : string) : endpoint := fun _ => Normal {| text := Some body |}.

(** A consultation, as a parsed value. *)
Definition sample_consultation : value :=
  VObject [ ("summary", VString "A 120 kW rooftop array");
            ("recommendations", VArray [VString "Net-metering enrolment"]);
            ("estimatedCostRange", VString "$210,000 - $260,000");
            ("roiEstimate", VString "7 years") ].

(** A parser that knows one text. *)
Definition sample_parse (body : string) : completion value :=
  if String.eqb body "{...}" then Normal sample_consultation
  else Throw (SyntaxError "Unexpected token").

(** The integer a Number holds, when it holds one. *)
Definition integer_value (n : number) : option Z :=
  match n with
  | S754_zero _ => Some 0%Z
  | S754_finite s m e =>
      let magnitude :=
        if (0 <=? e)%Z then Some (Z.pos m * 2 ^ e)%Z
        else if (Z.pos m mod 2 ^ (- e) =? 0)%Z then Some (Z.pos m / 2 ^ (- e))%Z
        else None in
      (fun z : Z => if s then (- z)%Z else z) <$> magnitude
  | S754_infinity _ | S754_nan => None
  end.

(** Number-to-string on the integers below 10^21, which are written in
    decimal digits; it stands in for the platform's conversion in the
    examples, whose numbers are of that kind. *)
Definition decimal_toString (n : number) : string :=
  match integer_value n with
  | Some z => DecimalString.NilZero.string_of_int (Z.to_int z)
  | None => "NaN"
  end.

Definition toronto : UserLocation :=
  {| city := "Toronto"; region := "ON"; country := "Canada"; isDetected := true |}.

(** The same city and region, reported for another country and not detected. *)
Definition toronto_undetected : UserLocation :=
  {| city := "Toronto"; region := "ON"; country := "CA"; isDetected := false |}.

(** The fixed text of the commercial prompt, between the interpolations. *)
Definition prompt_text : list string :=
  [ "Act as an expert Commercial Solar Analyst for Power Solution Canada." ++ newline ++
    "      Location: ";
    ", ";
    "." ++ newline ++ "      Facility: ";
    ", ";
    " sqft." ++ newline ++ "      Goal: ";
    "." ++ newline ++
    "      " ++ newline ++
    "      Generate a professional commercial solar infrastructure brief." ++ newline ++
    "      - 5 high-impact " ++ quote ++ "Core Specifications" ++ quote ++
    " (concise, max 12 words each)." ++ newline ++
    "      - Include mentions of Net-metering, industrial-grade panels, and business energy grants."
    ++ newline ++
    "      - Return exactly: summary, recommendations[], estimatedCostRange, and roiEstimate." ].

(** A template filled in: text and values in turn. *)
Fixpoint interpolate (texts : list string) (values : list string) : string :=
  match texts, values with
  | t :: texts', v :: values' => t ++ v ++ interpolate texts' values'
  | t :: _, [] => t
  | [], _ => EmptyString
  end.

End SolarSpec.

(** ** Words for the further properties *)

Module MoreSpec.

(** A location with its region replaced. *)
Definition with_region (r : string) (location : UserLocation) : UserLocation :=
  {| city := city location; region := r; country := country location;
     isDetected := isDetected location |}.

(** A warning is among the events logged. *)
Definition warned (evs : list LocationService.event) : bool :=
  existsb (fun ev => negb (LocationService.is_fetch ev)) evs.

(** A Number the inputs can leave in the state: not NaN and not -0. *)
Definition storable (n : number) : bool :=
  match n with
  | S754_nan | S754_zero true => false
  | S754_zero false | S754_infinity _ | S754_finite _ _ _ => true
  end.

Definition is_decimal_digit (c : ascii) : bool :=
  let n := N_of_ascii c in ((48 <=? n) && (n <=? 57))%N.

Fixpoint all_decimal_digits (s : string) : bool :=
  match s with
  | EmptyString => true
  | String c rest => is_decimal_digit c && all_decimal_digits rest
  end.

(** The first and the last code unit of a string are not white space. *)
Definition starts_with_space (s : string) : bool :=
  match s with
  | EmptyString => false
  | String c _ => is_white_space c
  end.

Fixpoint ends_with_space (s : string) : bool :=
  match s with
  | EmptyString => false
  | String c EmptyString => is_white_space c
  | String _ rest => ends_with_space rest
  end.

(** [addons[key]] *)
Definition addon (key : ADU.addon_key) (a : ADU.Addons) : bool :=
  match key with
  | ADU.key_energyIndependence => ADU.energyIndependence a
  | ADU.key_smartSecurity => ADU.smartSecurity a
  | ADU.key_carbonNeutral => ADU.carbonNeutral a
  | ADU.key_zonalComfort => ADU.zonalComfort a
  end.

Definition same_key (k1 k2 : ADU.addon_key) : bool :=
  match k1, k2 with
  | ADU.key_energyIndependence, ADU.key_energyIndependence
  | ADU.key_smartSecurity, ADU.key_smartSecurity
  | ADU.key_carbonNeutral, ADU.key_carbonNeutral
  | ADU.key_zonalComfort, ADU.key_zonalComfort => true
  | _, _ => false
  end.

(** The calls to the consultation service among logged events. *)
Definition adu_calls (evs : list ADU.event) : list (ADU.ADUConfig * UserLocation) :=
  omap (fun ev => match ev with
                  | ADU.GetADUConsultation c l => Some (c, l)
                  | ADU.ConsoleError _ => None
                  end) evs.

Definition solar_calls (evs : list Solar.event) : list (Solar.SolarNeeds * UserLocation) :=
  omap (fun ev => match ev with
                  | Solar.GetSolarConsultation n l => Some (n, l)
                  | _ => None
                  end) evs.

Definition adu_errors (evs : list ADU.event) : list exn :=
  omap (fun ev => match ev with
                  | ADU.ConsoleError e => Some e
                  | ADU.GetADUConsultation _ _ => None
                  end) evs.

Definition solar_errors (evs : list Solar.event) : list exn :=
  omap (fun ev => match ev with
                  | Solar.ConsoleError e => Some e
                  | _ => None
                  end) evs.

(** A table that has a 'Default' entry and no 'ON' entry; a location in
    Quebec; a service that is down. *)
Definition default_only : gmap string RegionalData :=
  <[ "Default" := {| aduPricing :=
                       {| studio := mkTier "$130,000" "$1,700 - $2,000";
                          oneBed := mkTier "$175,000" "$2,000 - $2,400";
                          twoBed := mkTier "$220,000" "$2,500 - $3,000" |};
                     policyUrl := "https://www.canada.ca/en/housing.html" |} ]> ∅.

Definition montreal : UserLocation :=
  {| city := "Montreal"; region := "QC"; country := "Canada"; isDetected := true |}.

Definition adu_service_down : ADU.consultant :=
  fun _ _ => Throw (Error "503 Service Unavailable").

Definition solar_service_down : Solar.consultant :=
  fun _ _ => Throw (Error "503 Service Unavailable").

(** A parser for which every text is the empty object. *)
Definition parse_empty_object : string -> completion value :=
  fun _ => Normal (VObject []).

(** An endpoint that answers every request with the same text. *)
Definition texting (body : option string) : Solar.endpoint :=
  fun _ => Normal {| Solar.text := body |}.

End MoreSpec.

(** * Properties *)

(** ** String methods *)

Section StringFacts.
Import ADU.

Lemma index_dash_cons (c : ascii) (rest : string) :
  String.index 0 "-" (String c rest) =
  if Ascii.eqb c "-" then Some 0 else S <$> String.index 0 "-" rest.
Proof.
  cbn [String.index String.prefix].
  destruct (ascii_dec "-" c) as [<- | Hne].
  - cbn. now destruct rest.
  - destruct (Ascii.eqb_spec c "-") as [-> | _]; [congruence |].
    now destruct (String.index 0 "-" rest).
Qed.

Lemma includes_dash_cons (c : ascii) (rest : string) :
  includes (String c rest) "-" = Ascii.eqb c "-" || includes rest "-".
Proof.
  unfold includes. rewrite index_dash_cons.
  destruct (Ascii.eqb c "-"); [reflexivity |].
  now destruct (String.index 0 "-" rest).
Qed.

Lemma substring_all (s : string) : String.substring 0 (String.length s) s = s.
Proof. induction s as [| c s IH]; cbn; [reflexivity | now rewrite IH]. Qed.

(** [split] cuts at the first dash: the head is the text before it, the tail
    is the split of the text after it. *)
Lemma split_first_dash (price : string) :
  split price "-" =
  before_first_dash price ::
  (if includes price "-" then split (after_first_dash price) "-" else []).
Proof.
  induction price as [| c rest IH].
  - reflexivity.
  - unfold before_first_dash, after_first_dash in *.
    rewrite includes_dash_cons, index_dash_cons. cbn [split].
    destruct (Ascii.eqb c "-") eqn:Hc; cbn [orb].
    + cbn [String.substring String.length].
      replace (S (String.length rest) - 1) with (String.length rest) by lia.
      now rewrite substring_all.
    + rewrite IH. unfold includes.
      destruct (String.index 0 "-" rest) as [i |]; cbn; reflexivity.
Qed.

Lemma split_lookup_0 (price : string) :
  split price "-" !! 0 = Some (before_first_dash price).
Proof. now rewrite split_first_dash. Qed.

Lemma split_lookup_1 (price : string) :
  includes price "-" = true ->
  split price "-" !! 1 = Some (between_first_and_second_dash price).
Proof.
  intros Hdash. rewrite split_first_dash, Hdash. cbn.
  apply split_lookup_0.
Qed.

(** The two definitions in the words of the specification mean what they
    say: in [a-rest] with no dash in [a], the text before the first dash is
    [a] and the text after it is [rest]. *)
Lemma index_first_dash (a rest : string) :
  includes a "-" = false ->
  String.index 0 "-" (a ++ String "-" rest) = Some (String.length a).
Proof.
  induction a as [| c a IH]; intros Hnone.
  - change (EmptyString ++ String "-" rest) with (String "-" rest).
    now rewrite index_dash_cons.
  - rewrite includes_dash_cons in Hnone. apply orb_false_elim in Hnone as [Hc Ha].
    change (String c a ++ String "-" rest) with (String c (a ++ String "-" rest)).
    rewrite index_dash_cons, Hc, (IH Ha). reflexivity.
Qed.

Lemma substring_prefix (a rest : string) :
  String.substring 0 (String.length a) (a ++ rest) = a.
Proof. induction a as [| c a IH]; simpl; [now destruct rest | now rewrite IH]. Qed.

Lemma substring_suffix (a rest : string) :
  String.substring (String.length a) (String.length rest) (a ++ rest) = rest.
Proof. induction a as [| c a IH]; simpl; [apply substring_all | exact IH]. Qed.

Lemma length_append (a b : string) :
  String.length (a ++ b) = String.length a + String.length b.
Proof. induction a as [| c a IH]; simpl; [reflexivity | now rewrite IH]. Qed.

Lemma before_first_dash_append (a rest : string) :
  includes a "-" = false -> before_first_dash (a ++ String "-" rest) = a.
Proof.
  intros Hnone. unfold before_first_dash. rewrite (index_first_dash _ _ Hnone).
  apply substring_prefix.
Qed.

Lemma substring_after (a : string) (c : ascii) (rest : string) (n : nat) :
  String.substring (S (String.length a)) n (a ++ String c rest) = String.substring 0 n rest.
Proof. induction a as [| c' a IH]; simpl; [reflexivity | exact IH]. Qed.

Lemma after_first_dash_append (a rest : string) :
  includes a "-" = false -> after_first_dash (a ++ String "-" rest) = rest.
Proof.
  intros Hnone. unfold after_first_dash. rewrite (index_first_dash _ _ Hnone).
  rewrite substring_after, length_append. simpl String.length.
  replace (String.length a + S (String.length rest) - S (String.length a))
    with (String.length rest) by lia.
  apply substring_all.
Qed.

Lemma before_first_dash_whole (s : string) :
  includes s "-" = false -> before_first_dash s = s.
Proof.
  unfold includes, before_first_dash. now destruct (String.index 0 "-" s).
Qed.

End StringFacts.

(** ** Running effects *)

(** Expose the outcome of a computation built from the operations of
    [Effects]. *)
Ltac run_effects :=
  unfold try_finally, try_catch, bind, get, modify, emit, lift, throw, ret.

(** ** The location service *)

Section LocationFacts.
Import LocationService LocationSpec.

(** Every way an invocation can go. *)
Lemma run_cases (net : network) :
  run net =
  match net "https://ipwho.is/" with
  | Throw e => fell_back e
  | Normal response =>
      if ok response then
        match json response with
        | Throw e => fell_back e
        | Normal data =>
            if nullish data
            then fell_back (TypeError "Cannot read properties of null or undefined, reading city")
            else detected_from data
        end
      else fell_back (Error "Network response was not ok")
  end.
Proof.
  unfold run, detectLocation, fetch. run_effects.
  destruct (net "https://ipwho.is/") as [[[] [data | e]] | e]; cbn; try reflexivity.
  destruct data; reflexivity.
Qed.

Lemma or_else_truthy (a b : value) : ToBoolean b = true -> ToBoolean (or_else a b) = true.
Proof. intros Hb. unfold or_else. now destruct (ToBoolean a) eqn:Ha. Qed.

Lemma or_else_falsy (a b : value) : ToBoolean a = false -> or_else a b = b.
Proof. intros Ha. unfold or_else. now rewrite Ha. Qed.

Lemma or_else_string (a : value) (d : string) :
  d <> EmptyString -> string_or_falsy a = true ->
  nonempty_string (or_else a (VString d)) = true.
Proof.
  intros Hd Ha. unfold or_else, string_or_falsy in *.
  destruct (ToBoolean a) eqn:Ht.
  - destruct a; cbn in *; try discriminate. exact Ht.
  - cbn. now destruct (String.eqb_spec d EmptyString).
Qed.

(** C1, as worded, fails: a response that is ok and whose body parses to
    [null] is a call that succeeded, yet reading [data.city] throws inside
    the [try] block and the fallback comes back with [isDetected] false. *)
Lemma detectLocation_null_body_not_detected : ~ as_specified null_body.
Proof.
  intros (_ & loc & Hrun & _ & Hiff).
  rewrite run_cases in Hrun. cbn in Hrun. injection Hrun as <-.
  destruct Hiff as [_ Hdetected]. specialize (Hdetected eq_refl). discriminate.
Qed.

(** C1, amended: [detectLocation] makes exactly one HTTP request per
    invocation and never rejects; if the request throws, the response is not
    ok or the body cannot be parsed, it returns the hardcoded fallback
    location with [isDetected] false; [isDetected] is true exactly when the
    call succeeded with a body other than [null], and is false only on the
    fallback. *)
Theorem detectLocation_one_request_never_rejects (net : network) :
  requests net = [Fetch "https://ipwho.is/"] /\
  exists loc,
    returned (run net) = Normal loc /\
    (call_succeeded net = false -> loc = fallback) /\
    (isDetected loc = true <-> call_succeeded net = true /\ usable_payload net = true) /\
    (isDetected loc = false -> loc = fallback).
Proof.
  unfold requests, call_succeeded, usable_payload, payload. rewrite run_cases.
  destruct (net "https://ipwho.is/") as [[[] [data | e]] | e]; cbn.
  1: destruct (nullish data) eqn:Hnull; cbn.
  all: split; [reflexivity |]; eexists; split; [reflexivity |]; cbn.
  all: repeat split; intros; try reflexivity; try discriminate; intuition discriminate.
Qed.

Lemma detectLocation_one_request_never_rejects_witness :
  returned (run unreachable) = Normal fallback.
Proof.
  destruct (detectLocation_one_request_never_rejects unreachable)
    as (_ & loc & Hrun & Hfailed & _).
  rewrite Hrun. f_equal. apply Hfailed. reflexivity.
Defined.

(** C9, as worded, fails: a truthy payload field that is not a string is
    passed through, here a city given as a nested object. *)
Lemma detectLocation_nested_city_not_string : ~ substitution_as_specified nested_city.
Proof.
  intros Hspec. destruct (Hspec _ eq_refl) as (loc & Hrun & _ & _ & _ & _ & Hcity & _).
  rewrite run_cases in Hrun. cbn in Hrun. injection Hrun as <-.
  cbn in Hcity. discriminate.
Qed.

(** C9, amended: when the request succeeds with a body other than [null],
    [detectLocation] substitutes defaults per field: a falsy [city],
    [region_code] or [country] of the payload is replaced by
    'St. Catharines', 'ON' or 'Canada' and a truthy one is kept, while
    [isDetected] is true.  Every field of every returned location is truthy,
    and is a non-empty string whenever the payload field is a string or
    falsy. *)
Theorem detectLocation_substitutes_defaults (net : network) :
  exists loc,
    returned (run net) = Normal loc /\
    ToBoolean (city loc) = true /\
    ToBoolean (region loc) = true /\
    ToBoolean (country loc) = true /\
    forall data, payload net = Some data -> nullish data = false ->
      isDetected loc = true /\
      (ToBoolean (field data "city") = false -> city loc = VString "St. Catharines") /\
      (ToBoolean (field data "region_code") = false -> region loc = VString "ON") /\
      (ToBoolean (field data "country") = false -> country loc = VString "Canada") /\
      (ToBoolean (field data "city") = true -> city loc = field data "city") /\
      (ToBoolean (field data "region_code") = true -> region loc = field data "region_code") /\
      (ToBoolean (field data "country") = true -> country loc = field data "country") /\
      (string_or_falsy (field data "city") = true -> nonempty_string (city loc) = true) /\
      (string_or_falsy (field data "region_code") = true -> nonempty_string (region loc) = true) /\
      (string_or_falsy (field data "country") = true -> nonempty_string (country loc) = true).
Proof.
  assert (Hfallback : exists loc : Location value,
             Normal fallback = Normal loc /\
             ToBoolean (city loc) = true /\ ToBoolean (region loc) = true /\
             ToBoolean (country loc) = true /\ isDetected loc = false).
  { exists fallback. repeat split. }
  unfold payload. rewrite run_cases.
  destruct (net "https://ipwho.is/") as [[[] [data | e]] | e]; cbn;
    try (destruct Hfallback as (loc & ? & ? & ? & ? & ?); exists loc;
         repeat (split; [assumption |]); intros; discriminate).
  destruct (nullish data) eqn:Hnull; cbn.
  - exists fallback. repeat (split; [reflexivity |]).
    intros data' [= <-] Hnot. congruence.
  - eexists. split; [reflexivity |]. cbn.
    repeat (split; [now apply or_else_truthy |]).
    intros data' [= <-] _. split; [reflexivity |].
    repeat split; intros H;
      try (now apply or_else_falsy);
      try (unfold or_else; now rewrite H);
      try (apply or_else_string; [discriminate | exact H]).
Qed.

Lemma detectLocation_substitutes_defaults_witness :
  returned (run empty_fields) =
  Normal {| city := VString "St. Catharines"; region := VString "ON";
            country := VString "Canada"; isDetected := true |}.
Proof.
  destruct (detectLocation_substitutes_defaults empty_fields)
    as (loc & Hrun & _ & _ & _ & Hfields).
  destruct (Hfields _ eq_refl eq_refl)
    as (Hdetected & Hcity & Hregion & Hcountry & _).
  rewrite Hrun. destruct loc as [c r k d]. cbn in *.
  rewrite Hdetected, (Hcity eq_refl), (Hregion eq_refl), (Hcountry eq_refl).
  reflexivity.
Defined.

End LocationFacts.

(** ** The regional table *)

Section KnowledgeFacts.
Import ADUSpec.
Variable table : gmap string RegionalData.

Lemma read_entry (k : string) (d : RegionalData) : table !! k = Some d -> read table k = Entry d.
Proof. intros H. unfold read. now rewrite H. Qed.

Lemma read_undefined (k : string) :
  read table k = Undefined <-> table !! k = None /\ inherited k = false.
Proof.
  unfold read. destruct (table !! k); [| destruct (inherited k)];
    split; try discriminate; try tauto; intros [? ?]; discriminate.
Qed.

(** What passes the [in] test is never read back as [undefined]. *)
Lemma read_activeRegion (location : UserLocation) :
  is_Some (table !! "ON") ->
  read table (Knowledge.activeRegion table location) <> Undefined.
Proof.
  intros [d Hon]. unfold Knowledge.activeRegion, has_property.
  destruct (read table (region location)) eqn:Hread; cbn; try congruence.
  rewrite (read_entry _ _ Hon). discriminate.
Qed.

(** For a region that is not the name of an inherited member, the active
    region is the region when the table has it and 'ON' otherwise. *)
Lemma activeRegion_own_or_fallback (location : UserLocation) :
  inherited (region location) = false ->
  activeRegion_as_specified table location.
Proof.
  intros Hown. unfold activeRegion_as_specified, Knowledge.activeRegion, has_property, read.
  rewrite Hown. destruct (table !! region location) as [d |] eqn:Hlookup.
  - rewrite bool_decide_eq_true_2; [reflexivity | eauto].
  - rewrite bool_decide_eq_false_2; [reflexivity |]. intros [? ?]. discriminate.
Qed.

Lemma activeRegion_is_key (location : UserLocation) :
  is_Some (table !! "ON") ->
  inherited (region location) = false ->
  is_Some (table !! Knowledge.activeRegion table location).
Proof.
  intros Hon Hown. rewrite (activeRegion_own_or_fallback _ Hown).
  case_bool_decide; assumption.
Qed.

(** With an entry for the active region, the policy link on display is the
    one of that entry, in both components. *)
Lemma policyLink_of_entry (location : UserLocation) (entry : RegionalData) :
  table !! Knowledge.activeRegion table location = Some entry ->
  ADU.policyLink table location = Normal (Some (policyUrl entry)) /\
  Solar.policyLink table location = Normal (Some (policyUrl entry)).
Proof.
  intros Hentry.
  unfold ADU.policyLink, Solar.policyLink, ADU.activeRegion, Solar.activeRegion, policyLink_of.
  now rewrite (read_entry _ _ Hentry).
Qed.

End KnowledgeFacts.

(** ** The ADU section *)

Section ADUFacts.
Import ADU ADUSpec.

Lemma switch_size_tier (s : string) :
  switch_size s =
  match tier_for s with
  | None => CaseDefault
  | Some _ =>
      if String.eqb s "studio" then CaseStudio
      else if String.eqb s "1-bedroom" then CaseOneBedroom else CaseTwoBedroom
  end.
Proof.
  unfold switch_size, tier_for.
  destruct (String.eqb s "studio"), (String.eqb s "1-bedroom"), (String.eqb s "2-bedroom");
    reflexivity.
Qed.

(** The size is one of the three button ids in every reachable state. *)
Lemma reachable_size (st : State) : reachable st -> size (config st) ∈ sizeButtons.
Proof.
  induction 1 as [| st a Hreach IH].
  - cbn. set_solver.
  - destruct a as [i | i | b | idx | service location]; cbn.
    + destruct (sizeButtons !! i) as [id |] eqn:Hi; [| exact IH].
      cbn. eapply list_elem_of_lookup_2, Hi.
    + destruct (addonOptions !! i); exact IH.
    + exact IH.
    + exact IH.
    + unfold fetchSpecs, getADUConsultation. run_effects.
      cbn. destruct (service (config st) location); exact IH.
Qed.

Lemma sizeButtons_handled (s : string) : s ∈ sizeButtons -> switch_size s <> CaseDefault.
Proof.
  unfold sizeButtons. rewrite !elem_of_cons, elem_of_nil.
  intros [-> | [-> | [-> | []]]]; discriminate.
Qed.

(** C3: the code at a region named after a member of [Object.prototype].
    The [in] test holds for the inherited name, so the active region is that
    name and not 'ON', although it is no key of the table; reading the
    pricing then throws, and the policy link is [undefined]. *)
Theorem activeRegion_inherited_name
    (table : gmap string RegionalData) (location : UserLocation) :
  table !! "constructor" = None ->
  region location = "constructor" ->
  ADU.activeRegion table location = "constructor" /\
  Solar.activeRegion table location = "constructor" /\
  table !! ADU.activeRegion table location = None /\
  ~ activeRegion_as_specified table location /\
  rentalIncome table location initial =
    Throw (TypeError "Cannot read properties of undefined, reading studio") /\
  ADU.policyLink table location = Normal None.
Proof.
  intros Hnone Hregion.
  assert (Hactive : Knowledge.activeRegion table location = "constructor").
  { unfold Knowledge.activeRegion, has_property, read. rewrite Hregion, Hnone. reflexivity. }
  unfold ADU.activeRegion, Solar.activeRegion, rentalIncome, ADU.policyLink, policyLink_of,
    pricing_of, ADU.activeRegion, activeRegion_as_specified.
  rewrite !Hactive. unfold read. rewrite Hregion, Hnone. cbn.
  repeat split; try reflexivity. discriminate.
Qed.

Lemma activeRegion_inherited_name_witness :
  ADU.activeRegion sample_table constructor_location = "constructor" /\
  sample_table !! "constructor" = None.
Proof.
  split; [| reflexivity].
  apply (activeRegion_inherited_name sample_table constructor_location); reflexivity.
Defined.

(** For an active region with an entry in the table, the monthly rental
    income and the base project estimate are the [rentalEstimate] and
    [basePrice] of the tier the unit size selects; both are the same for any
    two states with the same size and any two locations with the same active
    region. *)
Theorem pricing_follows_size_and_region
    (table : gmap string RegionalData) (location : UserLocation) (st : State)
    (entry : RegionalData) (tier : ADUPricing -> Tier) :
  table !! ADU.activeRegion table location = Some entry ->
  tier_for (size (config st)) = Some tier ->
  rentalIncome table location st = Normal (rentalEstimate (tier (aduPricing entry))) /\
  ADU.basePrice table location st = Normal (Knowledge.basePrice (tier (aduPricing entry))) /\
  forall (location' : UserLocation) (st' : State),
    ADU.activeRegion table location' = ADU.activeRegion table location ->
    size (config st') = size (config st) ->
    rentalIncome table location' st' = rentalIncome table location st /\
    ADU.basePrice table location' st' = ADU.basePrice table location st.
Proof.
  intros Hentry Htier.
  unfold rentalIncome, ADU.basePrice, pricing_of.
  split; [| split].
  - rewrite (read_entry _ _ _ Hentry). cbn. rewrite switch_size_tier.
    unfold tier_for in *.
    destruct (String.eqb (size (config st)) "studio");
      [| destruct (String.eqb (size (config st)) "1-bedroom");
         [| destruct (String.eqb (size (config st)) "2-bedroom")]];
      now inversion Htier.
  - rewrite (read_entry _ _ _ Hentry). cbn. rewrite switch_size_tier.
    unfold tier_for in *.
    destruct (String.eqb (size (config st)) "studio");
      [| destruct (String.eqb (size (config st)) "1-bedroom");
         [| destruct (String.eqb (size (config st)) "2-bedroom")]];
      now inversion Htier.
  - intros location' st' -> ->. split; reflexivity.
Qed.

Lemma pricing_follows_size_and_region_witness :
  rentalIncome sample_table vancouver (step initial (ClickSize 1)) = Normal "$2,200 - $2,700" /\
  ADU.basePrice sample_table vancouver (step initial (ClickSize 1)) = Normal "$190,000".
Proof.
  destruct (pricing_follows_size_and_region sample_table vancouver
              (step initial (ClickSize 1))
              {| aduPricing :=
                   {| studio := mkTier "$140,000" "$1,800 - $2,200";
                      oneBed := mkTier "$190,000" "$2,200 - $2,700";
                      twoBed := mkTier "$245,000" "$2,800+" |};
                 policyUrl := "https://www2.gov.bc.ca/gov/content/housing-tenancy" |}
              oneBed)
    as (Hrent & Hbase & _); [reflexivity | reflexivity |].
  split; assumption.
Defined.

(** C6: the code at a region named after a member of [Object.prototype],
    in any state the component can reach.  The active region is that name,
    for which the table has no entry, so there is no pricing tier to show:
    whatever the unit size, [rentalIncome] and [basePrice] end in a
    TypeError and are the [rentalEstimate] and [basePrice] of no tier of any
    entry. *)
Theorem pricing_throws_on_inherited_name
    (table : gmap string RegionalData) (location : UserLocation) (st : State) :
  table !! "constructor" = None ->
  region location = "constructor" ->
  reachable st ->
  ADU.activeRegion table location = "constructor" /\
  table !! ADU.activeRegion table location = None /\
  (exists message, rentalIncome table location st = Throw (TypeError message)) /\
  (exists message, ADU.basePrice table location st = Throw (TypeError message)) /\
  forall (entry : RegionalData) (tier : ADUPricing -> Tier),
    rentalIncome table location st <> Normal (rentalEstimate (tier (aduPricing entry))) /\
    ADU.basePrice table location st <> Normal (Knowledge.basePrice (tier (aduPricing entry))).
Proof.
  intros Hnone Hregion Hreach.
  assert (Hactive : ADU.activeRegion table location = "constructor").
  { unfold ADU.activeRegion, Knowledge.activeRegion, has_property, read.
    rewrite Hregion, Hnone. reflexivity. }
  assert (Hread : read table "constructor" = Inherited).
  { unfold read. rewrite Hnone. reflexivity. }
  pose proof (sizeButtons_handled _ (reachable_size _ Hreach)) as Hhandled.
  assert (Hthrows :
            (exists message, rentalIncome table location st = Throw (TypeError message)) /\
            (exists message, ADU.basePrice table location st = Throw (TypeError message))).
  { unfold rentalIncome, ADU.basePrice, pricing_of. rewrite Hactive, Hread.
    cbn [and_then].
    destruct (switch_size (size (config st))); cbn; eauto; congruence. }
  destruct Hthrows as [[message Hrent] [message' Hbase]].
  split; [exact Hactive |]. split; [now rewrite Hactive |].
  split; [eauto |]. split; [eauto |].
  intros entry tier. rewrite Hrent, Hbase. split; discriminate.
Qed.

Lemma pricing_throws_on_inherited_name_witness :
  exists message,
    rentalIncome sample_table constructor_location (step initial (ClickSize 1)) =
    Throw (TypeError message).
Proof.
  destruct (pricing_throws_on_inherited_name sample_table constructor_location
              (step initial (ClickSize 1))) as (_ & _ & Hrent & _).
  - reflexivity.
  - reflexivity.
  - apply reachable_step, reachable_initial.
  - exact Hrent.
Defined.

(** C7: [renderRentalPrice] only formats its argument.  A price with a dash
    is shown as two values, the trimmed text before the first dash and the
    trimmed text between the first dash and the second (what follows a second
    dash is dropped); a price without a dash is shown as it is. *)
Theorem renderRentalPrice_formats (price : string) :
  renderRentalPrice price =
  Normal (if includes price "-"
          then two_lines (trim (before_first_dash price))
                         (trim (between_first_and_second_dash price))
          else one_line price).
Proof.
  unfold renderRentalPrice.
  destruct (includes price "-") eqn:Hdash; [| reflexivity].
  unfold trimmed_part. rewrite split_lookup_0, (split_lookup_1 _ Hdash). reflexivity.
Qed.

(** What follows a second dash is not shown. *)
Lemma renderRentalPrice_drops_rest (a b rest : string) :
  includes a "-" = false -> includes b "-" = false ->
  renderRentalPrice (a ++ String "-" (b ++ String "-" rest)) = Normal (two_lines (trim a) (trim b)).
Proof.
  intros Ha Hb.
  assert (Hdash : includes (a ++ String "-" (b ++ String "-" rest)) "-" = true).
  { unfold includes. now rewrite (index_first_dash _ _ Ha). }
  unfold renderRentalPrice, trimmed_part.
  rewrite Hdash, split_lookup_0, (split_lookup_1 _ Hdash).
  unfold between_first_and_second_dash.
  now rewrite (before_first_dash_append _ _ Ha), (after_first_dash_append _ _ Ha),
    (before_first_dash_append _ _ Hb).
Qed.

(** The error branches of the ADU pricing lookups are unreachable.  In every
    reachable state [config.size] is one of the three handled literals, so
    the [default] arms of [rentalIncome] and [basePrice] are never selected;
    and when 'ON' is a key of the table, [regionalKnowledge[activeRegion]]
    is never [undefined], so [policyLink] never falls through to the
    'Default' entry.  The active region is a key of the table whenever the
    region is not the name of an inherited member. *)
Lemma error_branches_unreachable
    (table : gmap string RegionalData) (location : UserLocation) (st : State) :
  is_Some (table !! "ON") ->
  reachable st ->
  size (config st) ∈ sizeButtons /\
  switch_size (size (config st)) <> CaseDefault /\
  read table (ADU.activeRegion table location) <> Undefined /\
  (inherited (region location) = false ->
   is_Some (table !! ADU.activeRegion table location)).
Proof.
  intros Hon Hreach. split; [| split; [| split]].
  - now apply reachable_size.
  - now apply sizeButtons_handled, reachable_size.
  - now apply read_activeRegion.
  - now apply activeRegion_is_key.
Qed.

(** C8: the code at a region named after a member of [Object.prototype],
    in the initial state and with 'ON' in the table.  The active region is
    not a key of the table, against the premise of the claim; the [default]
    arm and the 'Default' entry are indeed not reached, but the pricing
    lookups end in a TypeError instead of a price. *)
Theorem activeRegion_not_always_key
    (table : gmap string RegionalData) (location : UserLocation) :
  is_Some (table !! "ON") ->
  table !! "constructor" = None ->
  region location = "constructor" ->
  ~ error_branches_as_specified table /\
  table !! ADU.activeRegion table location = None /\
  switch_size (size (config initial)) = CaseStudio /\
  read table (ADU.activeRegion table location) = Inherited /\
  ADU.basePrice table location initial =
    Throw (TypeError "Cannot read properties of undefined, reading studio").
Proof.
  intros Hon Hnone Hregion.
  assert (Hactive : ADU.activeRegion table location = "constructor").
  { unfold ADU.activeRegion, Knowledge.activeRegion, has_property, read.
    rewrite Hregion, Hnone. reflexivity. }
  assert (Hread : read table "constructor" = Inherited).
  { unfold read. rewrite Hnone. reflexivity. }
  split; [| split; [| split; [| split]]].
  - intros Hspec.
    destruct (Hspec location initial reachable_initial) as ([d Hkey] & _).
    unfold ADU.activeRegion in Hactive. rewrite Hactive in Hkey. congruence.
  - now rewrite Hactive.
  - reflexivity.
  - now rewrite Hactive.
  - unfold ADU.basePrice, pricing_of. rewrite Hactive, Hread. reflexivity.
Qed.

Lemma activeRegion_not_always_key_witness :
  sample_table !! ADU.activeRegion sample_table constructor_location = None.
Proof.
  apply (activeRegion_not_always_key sample_table constructor_location).
  - exists {| aduPricing :=
                {| studio := mkTier "$120,000" "$1,600 - $1,900";
                   oneBed := mkTier "$165,000" "$1,900 - $2,300";
                   twoBed := mkTier "$210,000" "$2,400 - $2,900" |};
              policyUrl := "https://www.ontario.ca/page/add-second-unit-your-house" |}.
    reflexivity.
  - reflexivity.
  - reflexivity.
Defined.

End ADUFacts.

(** ** The consultation handlers *)

Section ConsultationFacts.
Import Solar SolarSpec.

(** Every way a run of the ADU effect can go. *)
Lemma fetchSpecs_cases (service : ADU.consultant) (location : UserLocation) (st : ADU.State) :
  ADU.fetchSpecs service location st =
  match service (ADU.config st) location with
  | Normal res =>
      Outcome (Normal tt) (ADU.setLoading false (ADU.setResult res st))
        [ADU.GetADUConsultation (ADU.config st) location]
  | Throw e =>
      Outcome (Normal tt) (ADU.setLoading false st)
        [ADU.GetADUConsultation (ADU.config st) location; ADU.ConsoleError e]
  end.
Proof.
  unfold ADU.fetchSpecs, ADU.getADUConsultation. run_effects.
  destruct (service (ADU.config st) location); reflexivity.
Qed.

Lemma handleResidentialConsult_cases
    (location : UserLocation) (service : consultant) (st : State) :
  handleResidentialConsult location service st =
  match service (resNeeds st) location with
  | Normal res =>
      Outcome (Normal tt) (setLoading false (setResult res st))
        [GetSolarConsultation (resNeeds st) location]
  | Throw e =>
      Outcome (Normal tt) (setLoading false st)
        [GetSolarConsultation (resNeeds st) location; ConsoleError e]
  end.
Proof.
  unfold handleResidentialConsult, getSolarConsultation. run_effects.
  destruct (service (resNeeds st) location); reflexivity.
Qed.

Lemma handleCommercialConsult_cases
    (toString : number -> string) (parse : string -> completion value)
    (location : UserLocation) (ai : endpoint) (st : State) :
  handleCommercialConsult toString parse location ai st =
  match ai (commercialRequest toString location (comNeeds st)) with
  | Throw e =>
      Outcome (Normal tt) (setLoading false st)
        [GenerateContent (commercialRequest toString location (comNeeds st)); ConsoleError e]
  | Normal response =>
      match parse_text parse response with
      | Throw e =>
          Outcome (Normal tt) (setLoading false st)
            [GenerateContent (commercialRequest toString location (comNeeds st));
             ConsoleError e]
      | Normal parsed =>
          Outcome (Normal tt) (setLoading false (setResult parsed st))
            [GenerateContent (commercialRequest toString location (comNeeds st))]
      end
  end.
Proof.
  unfold handleCommercialConsult, generateContent. run_effects.
  generalize (commercialRequest toString location (comNeeds st)). intros request.
  cbn [final returned events].
  destruct (ai request) as [response | e]; [| reflexivity].
  destruct (parse_text parse response); reflexivity.
Qed.

(** C2, as worded, fails: a consultation handler has no default to show.
    After a failed call the result on display is whatever it was before. *)
Lemma consultation_has_no_static_fallback : ~ static_fallbacks_as_specified.
Proof.
  intros (_ & _ & _ & default & Hdefault).
  pose proof (Hdefault decimal_toString sample_parse toronto unavailable initial _ eq_refl)
    as Hfresh.
  pose proof (Hdefault decimal_toString sample_parse toronto unavailable
                (setResult sample_consultation initial) _ eq_refl) as Hstale.
  rewrite handleCommercialConsult_cases in Hfresh, Hstale.
  cbn in Hfresh, Hstale. rewrite <- Hfresh in Hstale. discriminate.
Qed.

(** C2, amended: every operation is a single best-effort network call, and
    when the call fails the operation catches the error and logs it.  The
    geolocation lookup then returns its static fallback; a consultation
    handler sets no default: it ends normally, clears the loading flag and
    leaves the result as it was before the call. *)
Theorem failed_calls_are_caught_and_logged :
  (forall net, LocationSpec.call_succeeded net = false ->
     exists e, LocationService.run net = LocationSpec.fell_back e) /\
  (forall service location st e,
     service (ADU.config st) location = Throw e ->
     ADU.fetchSpecs service location st =
     Outcome (Normal tt) (ADU.setLoading false st)
       [ADU.GetADUConsultation (ADU.config st) location; ADU.ConsoleError e]) /\
  (forall location service st e,
     service (resNeeds st) location = Throw e ->
     handleResidentialConsult location service st =
     Outcome (Normal tt) (setLoading false st)
       [GetSolarConsultation (resNeeds st) location; ConsoleError e]) /\
  (forall toString parse location ai st e,
     ai (commercialRequest toString location (comNeeds st)) = Throw e ->
     handleCommercialConsult toString parse location ai st =
     Outcome (Normal tt) (setLoading false st)
       [GenerateContent (commercialRequest toString location (comNeeds st));
        ConsoleError e]) /\
  (forall toString parse location ai st response e,
     ai (commercialRequest toString location (comNeeds st)) = Normal response ->
     parse_text parse response = Throw e ->
     handleCommercialConsult toString parse location ai st =
     Outcome (Normal tt) (setLoading false st)
       [GenerateContent (commercialRequest toString location (comNeeds st));
        ConsoleError e]).
Proof.
  repeat split.
  - intros net Hfailed. rewrite run_cases. unfold LocationSpec.call_succeeded in Hfailed.
    destruct (net "https://ipwho.is/") as [[[] [data | e]] | e]; cbn in *;
      try discriminate; eauto.
  - intros service location st e Hcall. now rewrite fetchSpecs_cases, Hcall.
  - intros location service st e Hcall. now rewrite handleResidentialConsult_cases, Hcall.
  - intros toString parse location ai st e Hcall.
    now rewrite handleCommercialConsult_cases, Hcall.
  - intros toString parse location ai st response e Hcall Hparse.
    now rewrite handleCommercialConsult_cases, Hcall, Hparse.
Qed.

Lemma failed_calls_are_caught_and_logged_witness :
  result (final (handleCommercialConsult decimal_toString sample_parse toronto unavailable
                   (setResult sample_consultation initial))) = sample_consultation /\
  returned (LocationService.run LocationSpec.unreachable) = Normal LocationService.fallback.
Proof.
  destruct failed_calls_are_caught_and_logged as (Hlocation & _ & _ & Hcommercial & _).
  split.
  - rewrite (Hcommercial decimal_toString sample_parse toronto unavailable
               (setResult sample_consultation initial)
               (Error "503 Service Unavailable") eq_refl).
    reflexivity.
  - destruct (Hlocation LocationSpec.unreachable eq_refl) as [e ->]. reflexivity.
Defined.

(** C4: every commercial consultation issues exactly one completion call;
    its request fixes [responseMimeType] to 'application/json' and a
    response schema whose properties and required fields are exactly
    [summary], [recommendations], [estimatedCostRange] and [roiEstimate];
    and the result then on display is what [JSON.parse] makes of the
    response text. *)
Theorem commercial_consultation_request
    (toString : number -> string) (parse : string -> completion value)
    (location : UserLocation) (ai : endpoint) (st : State) :
  let request := commercialRequest toString location (comNeeds st) in
  let run := handleCommercialConsult toString parse location ai st in
  completion_requests (events run) = [request] /\
  responseMimeType (config request) = "application/json" /\
  type (responseSchema (config request)) = OBJECT /\
  (map fst <$> properties (responseSchema (config request))) =
    Some ["summary"; "recommendations"; "estimatedCostRange"; "roiEstimate"] /\
  required (responseSchema (config request)) =
    Some ["summary"; "recommendations"; "estimatedCostRange"; "roiEstimate"] /\
  returned run = Normal tt /\
  forall response parsed,
    ai request = Normal response ->
    parse (default "undefined" (text response)) = Normal parsed ->
    result (final run) = parsed.
Proof.
  intros request run. subst run. rewrite handleCommercialConsult_cases. fold request.
  repeat (split; [first [reflexivity |
    destruct (ai request) as [response | e];
      [destruct (parse_text parse response) |]; reflexivity] |]).
  intros response parsed -> Hparse. unfold parse_text. now rewrite Hparse.
Qed.

Lemma commercial_consultation_request_witness :
  result (final (handleCommercialConsult decimal_toString sample_parse toronto
                   (answering "{...}") initial)) = sample_consultation.
Proof.
  destruct (commercial_consultation_request decimal_toString sample_parse toronto
              (answering "{...}") initial) as (_ & _ & _ & _ & _ & _ & Hshown).
  apply (Hshown {| text := Some "{...}" |}); reflexivity.
Defined.

End ConsultationFacts.

(** ** The commercial prompt and the number inputs *)

Section SolarFacts.
Import Solar SolarSpec.

(** C5: the commercial prompt is the fixed text with exactly five values
    interpolated, in this order: the city and region of the location, the
    facility type, the square footage and the primary goal.  Two locations
    and needs that agree on these five give the same prompt. *)
Theorem commercialPrompt_interpolates_inputs (toString : number -> string) :
  (forall (location : UserLocation) (needs : CommercialNeeds),
     commercialPrompt toString location needs =
     interpolate prompt_text
       [ city location; region location; facilityType needs;
         toString (squareFootage needs); primaryGoal needs ]) /\
  (forall (location1 location2 : UserLocation) (needs1 needs2 : CommercialNeeds),
     city location1 = city location2 ->
     region location1 = region location2 ->
     facilityType needs1 = facilityType needs2 ->
     squareFootage needs1 = squareFootage needs2 ->
     primaryGoal needs1 = primaryGoal needs2 ->
     commercialPrompt toString location1 needs1 = commercialPrompt toString location2 needs2).
Proof.
  split.
  - intros location needs. reflexivity.
  - intros location1 location2 needs1 needs2 Hcity Hregion Hfacility Hfootage Hgoal.
    unfold commercialPrompt. now rewrite Hcity, Hregion, Hfacility, Hfootage, Hgoal.
Qed.

Lemma commercialPrompt_interpolates_inputs_witness :
  commercialPrompt decimal_toString toronto (comNeeds initial) =
  commercialPrompt decimal_toString toronto_undetected (comNeeds initial).
Proof.
  destruct (commercialPrompt_interpolates_inputs decimal_toString) as [_ Hsame].
  apply Hsame; reflexivity.
Defined.

Lemma number_or_not_NaN (n : number) : isNaN (number_or n posZero) = false.
Proof. now destruct n. Qed.

(** C10: for every text entered in the monthly-bill or square-footage
    input, the value stored is [parseInt] of the text when that is truthy
    and 0 otherwise; the stored [monthlyBill] and [squareFootage] are never
    NaN, in any state the component can reach. *)
Theorem number_inputs_store_parseInt_or_zero :
  (forall (text : string) (st : State),
     monthlyBill (resNeeds (onMonthlyBillChange text st)) =
     if number_truthy (parseInt text) then parseInt text else posZero) /\
  (forall (text : string) (st : State),
     squareFootage (comNeeds (onSquareFootageChange text st)) =
     if number_truthy (parseInt text) then parseInt text else posZero) /\
  (forall st : State, reachable st ->
     isNaN (monthlyBill (resNeeds st)) = false /\
     isNaN (squareFootage (comNeeds st)) = false).
Proof.
  split; [| split]; [reflexivity | reflexivity |].
  induction 1 as [| st a Hreach [IHbill IHfootage]].
  - split; reflexivity.
  - destruct a as [i | text | text | i | i | location service
                   | toString parse location ai]; cbn [step].
    + destruct (modeButtons !! i); split; assumption.
    + split; [apply number_or_not_NaN | exact IHfootage].
    + split; [exact IHbill | apply number_or_not_NaN].
    + destruct (priorityButtons !! i); split; assumption.
    + destruct (facilityButtons !! i); split; assumption.
    + rewrite handleResidentialConsult_cases.
      destruct (service (resNeeds st) location); split; assumption.
    + rewrite handleCommercialConsult_cases.
      destruct (ai _) as [response |]; [destruct (parse_text parse response) |];
        split; assumption.
Qed.

Lemma number_inputs_store_parseInt_or_zero_witness :
  isNaN (monthlyBill (resNeeds (step (step initial (InputMonthlyBill "abc"))
                                     (InputSquareFootage EmptyString)))) = false.
Proof.
  destruct number_inputs_store_parseInt_or_zero as (_ & _ & Hinvariant).
  apply Hinvariant. do 2 apply reachable_step. apply reachable_initial.
Defined.

End SolarFacts.

(** ** The definitions at work *)

Section Examples.
Import ADU ADUSpec Solar SolarSpec.

Example detectLocation_offline :
  LocationService.run LocationSpec.unreachable =
  LocationSpec.fell_back (TypeError "Failed to fetch").
Proof. reflexivity. Qed.

Example detectLocation_nested_city :
  returned (LocationService.run LocationSpec.nested_city) =
  Normal {| city := VObject [("name", VString "Toronto")];
            region := VString "ON";
            country := VString "Canada";
            isDetected := true |}.
Proof. reflexivity. Qed.

Example parseInt_empty : parseInt EmptyString = NaN.
Proof. reflexivity. Qed.

Example parseInt_letters : parseInt "abc" = NaN.
Proof. reflexivity. Qed.

Example parseInt_zero : parseInt "0" = posZero /\ parseInt "-0" = negZero.
Proof. split; reflexivity. Qed.

Example parseInt_leading_digits :
  parseInt "  42.9" = of_Z 42 /\ parseInt "1e5" = of_Z 1 /\ parseInt "-7px" = of_Z (-7).
Proof. repeat split; reflexivity. Qed.

Example monthlyBill_cleared :
  monthlyBill (resNeeds (onMonthlyBillChange EmptyString Solar.initial)) = posZero /\
  monthlyBill (resNeeds (onMonthlyBillChange "-0" Solar.initial)) = posZero /\
  monthlyBill (resNeeds (onMonthlyBillChange "320" Solar.initial)) = of_Z 320.
Proof. repeat split; reflexivity. Qed.

Example render_range :
  renderRentalPrice "$1,800 - $2,200" = Normal (two_lines "$1,800" "$2,200").
Proof. reflexivity. Qed.

Example render_three_values :
  renderRentalPrice "$1,800 - $2,200 - $2,600" = Normal (two_lines "$1,800" "$2,200").
Proof. reflexivity. Qed.

Example render_single : renderRentalPrice "$2,800+" = Normal (one_line "$2,800+").
Proof. reflexivity. Qed.

Example activeRegion_examples :
  Knowledge.activeRegion sample_table vancouver = "BC" /\
  Knowledge.activeRegion sample_table
    {| city := "Seattle"; region := "WA"; country := "United States"; isDetected := true |}
  = "ON".
Proof. split; reflexivity. Qed.

Example prompt_for_toronto :
  commercialPrompt decimal_toString toronto (comNeeds Solar.initial) =
  interpolate prompt_text ["Toronto"; "ON"; "industrial"; "15000"; "cost-reduction"].
Proof. reflexivity. Qed.

End Examples.

(** * Further properties of the code *)

(** ** The location service and the regional table *)

Section MoreLocationFacts.
Import LocationService LocationSpec MoreSpec.

(** X1: [detectLocation] logs a warning exactly when it falls back: the
    events of an invocation contain a [console.warn] if and only if the
    location returned has [isDetected] false, there is never more than one,
    and a detected location comes with the request as the only event. *)
Theorem detectLocation_warns_iff_fallback (net : network) :
  exists loc,
    returned (run net) = Normal loc /\
    warned (events (run net)) = negb (isDetected loc) /\
    length (List.filter (fun ev => negb (is_fetch ev)) (events (run net))) <= 1 /\
    (isDetected loc = true -> events (run net) = [Fetch "https://ipwho.is/"]).
Proof.
  rewrite run_cases.
  destruct (net "https://ipwho.is/") as [[[] [data | e]] | e]; cbn.
  1: destruct (nullish data); cbn.
  all: eexists; split; [reflexivity |]; cbn; repeat split; try lia; try discriminate.
Qed.

Lemma detectLocation_warns_iff_fallback_witness :
  events (run nested_city) = [Fetch "https://ipwho.is/"].
Proof.
  destruct (detectLocation_warns_iff_fallback nested_city) as (loc & Hrun & _ & _ & Hquiet).
  apply Hquiet. cbn in Hrun. injection Hrun as <-. reflexivity.
Defined.

End MoreLocationFacts.

Section MoreKnowledgeFacts.
Import MoreSpec Display.

(** X2: the active region is the region of the location or 'ON', and
    computing it again from a location that carries the active region gives
    the same region: the choice is stable. *)
Theorem activeRegion_stable (table : gmap string RegionalData) (location : UserLocation) :
  (Knowledge.activeRegion table location = region location \/
   Knowledge.activeRegion table location = "ON") /\
  Knowledge.activeRegion table
    (with_region (Knowledge.activeRegion table location) location) =
  Knowledge.activeRegion table location.
Proof.
  unfold Knowledge.activeRegion.
  destruct (has_property table (region location)) eqn:Hin; cbn.
  - rewrite Hin. auto.
  - split; [auto |]. now destruct (has_property table "ON").
Qed.

(** X3: a table without the key 'ON'.  For a region that is not in the
    table either, both pricing lookups throw in every state, whereas the
    policy link falls through to the 'Default' entry when there is one, and
    throws as well when there is none. *)
Theorem lookups_without_ON_entry
    (table : gmap string RegionalData) (location : UserLocation) (st : ADU.State) :
  table !! "ON" = None ->
  table !! region location = None ->
  inherited (region location) = false ->
  (exists e, ADU.rentalIncome table location st = Throw e) /\
  (exists e, ADU.basePrice table location st = Throw e) /\
  (forall d, table !! "Default" = Some d ->
     ADU.policyLink table location = Normal (Some (policyUrl d)) /\
     Solar.policyLink table location = Normal (Some (policyUrl d))) /\
  (table !! "Default" = None ->
     (exists e, ADU.policyLink table location = Throw e) /\
     (exists e, Solar.policyLink table location = Throw e)).
Proof.
  intros Hon Hregion Hown.
  assert (Hactive : Knowledge.activeRegion table location = "ON").
  { unfold Knowledge.activeRegion, has_property, read. now rewrite Hregion, Hown. }
  assert (Hread : read table "ON" = Undefined).
  { unfold read. now rewrite Hon. }
  unfold ADU.rentalIncome, ADU.basePrice, ADU.policyLink, Solar.policyLink,
    ADU.activeRegion, Solar.activeRegion, ADU.pricing_of, policyLink_of.
  rewrite !Hactive, !Hread. cbn.
  split; [eauto |]. split; [eauto |]. split.
  - intros d Hdefault. unfold read. rewrite Hdefault. split; reflexivity.
  - intros Hdefault. unfold read. rewrite Hdefault. cbn. split; eauto.
Qed.

Lemma lookups_without_ON_entry_witness :
  ADU.policyLink default_only montreal = Normal (Some "https://www.canada.ca/en/housing.html") /\
  exists e, ADU.rentalIncome default_only montreal ADU.initial = Throw e.
Proof.
  destruct (lookups_without_ON_entry default_only montreal ADU.initial)
    as (Hrent & _ & Hdefault & _); try reflexivity.
  split; [| exact Hrent].
  apply (Hdefault {| aduPricing :=
                       {| studio := mkTier "$130,000" "$1,700 - $2,000";
                          oneBed := mkTier "$175,000" "$2,000 - $2,400";
                          twoBed := mkTier "$220,000" "$2,500 - $3,000" |};
                     policyUrl := "https://www.canada.ca/en/housing.html" |}).
  reflexivity.
Defined.

(** X4: the notice names the region of the location, the link follows the
    active region.  For a region that has no entry (and is no inherited
    name) in a table with 'ON', both sections link to the policy page of
    'ON' while the notice names 'British Columbia' for 'BC' and the raw
    region code otherwise. *)
Theorem notice_names_region_link_follows_ON
    (table : gmap string RegionalData) (location : UserLocation) (ontario : RegionalData) :
  table !! "ON" = Some ontario ->
  table !! region location = None ->
  inherited (region location) = false ->
  ADU.policyLink table location = Normal (Some (policyUrl ontario)) /\
  Solar.policyLink table location = Normal (Some (policyUrl ontario)) /\
  regionName location =
    (if String.eqb (region location) "BC" then "British Columbia" else region location).
Proof.
  intros Hon Hregion Hown.
  assert (Hactive : Knowledge.activeRegion table location = "ON").
  { unfold Knowledge.activeRegion, has_property, read. now rewrite Hregion, Hown. }
  unfold ADU.policyLink, Solar.policyLink, ADU.activeRegion, Solar.activeRegion, policyLink_of.
  rewrite !Hactive, (read_entry _ _ _ Hon).
  repeat split. unfold regionName.
  destruct (String.eqb_spec (region location) "ON") as [Heq | _]; [| reflexivity].
  rewrite Heq in Hregion. congruence.
Qed.

Lemma notice_names_region_link_follows_ON_witness :
  Solar.policyLink sample_table montreal =
    Normal (Some "https://www.ontario.ca/page/add-second-unit-your-house") /\
  regionName montreal = "QC".
Proof.
  destruct (notice_names_region_link_follows_ON sample_table montreal
              {| aduPricing :=
                   {| studio := mkTier "$120,000" "$1,600 - $1,900";
                      oneBed := mkTier "$165,000" "$1,900 - $2,300";
                      twoBed := mkTier "$210,000" "$2,400 - $2,900" |};
                 policyUrl := "https://www.ontario.ca/page/add-second-unit-your-house" |})
    as (_ & Hlink & Hname); try reflexivity.
  split; assumption.
Defined.

End MoreKnowledgeFacts.

(** ** The state of the ADU section *)

Section MoreADUFacts.
Import ADU MoreSpec.

(** X5: [toggleAddon] flips the add-on named by its key and nothing else:
    the other add-ons, the size, the intended use and the rest of the state
    are kept.  Toggling the same key twice restores the state, and two
    toggles give the same state in either order. *)
Theorem toggleAddon_flips_one_addon (key : addon_key) (st : State) :
  (forall k, addon k (addons (config (toggleAddon key st))) =
             if same_key k key then negb (addon k (addons (config st)))
             else addon k (addons (config st))) /\
  size (config (toggleAddon key st)) = size (config st) /\
  intendedUse (config (toggleAddon key st)) = intendedUse (config st) /\
  loading (toggleAddon key st) = loading st /\
  result (toggleAddon key st) = result st /\
  isEnlarged (toggleAddon key st) = isEnlarged st /\
  openHighlight (toggleAddon key st) = openHighlight st /\
  toggleAddon key (toggleAddon key st) = st /\
  forall key', toggleAddon key (toggleAddon key' st) = toggleAddon key' (toggleAddon key st).
Proof.
  destruct st as [[sz use [e s c z]] l r en op].
  split; [| repeat split].
  - intros k. destruct k, key; reflexivity.
  - destruct key; unfold toggleAddon, setConfig; cbn; now rewrite negb_involutive.
  - intros key'. destruct key, key'; reflexivity.
Qed.

(** X6: in every state the component can reach, the intended use is still
    'rental', the carbon-neutral add-on (for which there is no button) is
    still off, and no run of the effect has left the loading flag set. *)
Theorem ADU_state_invariant (st : State) :
  reachable st ->
  intendedUse (config st) = "rental" /\
  carbonNeutral (addons (config st)) = false /\
  loading st = false.
Proof.
  induction 1 as [| st a Hreach (IHuse & IHcarbon & IHloading)].
  - repeat split.
  - destruct a as [i | i | b | idx | service location]; cbn [step].
    + destruct (sizeButtons !! i); repeat split; assumption.
    + destruct i as [| [| [| i]]]; cbn; repeat split; assumption.
    + repeat split; assumption.
    + repeat split; assumption.
    + rewrite fetchSpecs_cases.
      destruct (service (config st) location); cbn; repeat split; assumption.
Qed.

Lemma ADU_state_invariant_witness :
  carbonNeutral (addons (config
    (step (step (step initial (ClickAddon 0)) (ClickAddon 2))
          (RunFetchSpecs adu_service_down montreal)))) = false.
Proof.
  apply ADU_state_invariant. do 3 apply reachable_step. apply reachable_initial.
Defined.

(** X7: a run of the effect [fetchSpecs] never throws, whatever the service
    does.  It calls the service exactly once, with the configuration and
    location of the render it belongs to, leaves the configuration, the
    enlarged flag and the open highlight as they were and the loading flag
    off; the result is the value the service returned, or the previous
    result, with the error logged once, when the call threw. *)
Theorem fetchSpecs_outcome (service : consultant) (location : UserLocation) (st : State) :
  let run := fetchSpecs service location st in
  returned run = Normal tt /\
  adu_calls (events run) = [(config st, location)] /\
  config (final run) = config st /\
  isEnlarged (final run) = isEnlarged st /\
  openHighlight (final run) = openHighlight st /\
  loading (final run) = false /\
  match service (config st) location with
  | Normal res => result (final run) = res /\ adu_errors (events run) = []
  | Throw e => result (final run) = result st /\ adu_errors (events run) = [e]
  end.
Proof.
  cbn zeta. rewrite fetchSpecs_cases.
  destruct (service (config st) location); cbn; repeat split.
Qed.

End MoreADUFacts.

(** ** The state of the solar section *)

Section MoreSolarFacts.
Import Solar SolarSpec MoreSpec.

(** X8: [handleResidentialConsult] never throws.  It calls the service
    exactly once, with the residential needs of the state and the location,
    leaves the mode and both needs as they were and the loading flag off;
    the result is the value the service returned, or the previous result,
    with the error logged once, when the call threw. *)
Theorem handleResidentialConsult_outcome
    (location : UserLocation) (service : consultant) (st : State) :
  let run := handleResidentialConsult location service st in
  returned run = Normal tt /\
  solar_calls (events run) = [(resNeeds st, location)] /\
  completion_requests (events run) = [] /\
  mode (final run) = mode st /\
  resNeeds (final run) = resNeeds st /\
  comNeeds (final run) = comNeeds st /\
  loading (final run) = false /\
  match service (resNeeds st) location with
  | Normal res => result (final run) = res /\ solar_errors (events run) = []
  | Throw e => result (final run) = result st /\ solar_errors (events run) = [e]
  end.
Proof.
  cbn zeta. rewrite handleResidentialConsult_cases.
  destruct (service (resNeeds st) location); cbn; repeat split.
Qed.

(** X9: in every state the component can reach, the mode, the facility type
    and the energy priority are among the ids of their buttons, the roof
    type and the primary goal, for which there is no control, still have
    their initial values, and no handler has left the loading flag set. *)
Theorem Solar_state_invariant (st : State) :
  reachable st ->
  mode st ∈ modeButtons /\
  facilityType (comNeeds st) ∈ facilityButtons /\
  energyPriority (resNeeds st) ∈ priorityButtons /\
  roofType (resNeeds st) = "asphalt-shingle" /\
  primaryGoal (comNeeds st) = "cost-reduction" /\
  loading st = false.
Proof.
  induction 1 as [| st a Hreach (IHmode & IHfacility & IHpriority & IHroof & IHgoal & IHload)].
  - repeat split; cbn; set_solver.
  - destruct a as [i | text | text | i | i | location service
                   | toString parse location ai]; cbn [step].
    + destruct (modeButtons !! i) as [m |] eqn:Hi; [| repeat split; assumption].
      cbn. repeat split; try assumption. eapply list_elem_of_lookup_2, Hi.
    + cbn. repeat split; assumption.
    + cbn. repeat split; assumption.
    + destruct (priorityButtons !! i) as [id |] eqn:Hi; [| repeat split; assumption].
      cbn. repeat split; try assumption. eapply list_elem_of_lookup_2, Hi.
    + destruct (facilityButtons !! i) as [id |] eqn:Hi; [| repeat split; assumption].
      cbn. repeat split; try assumption. eapply list_elem_of_lookup_2, Hi.
    + rewrite handleResidentialConsult_cases.
      destruct (service (resNeeds st) location); cbn; repeat split; assumption.
    + rewrite handleCommercialConsult_cases.
      destruct (ai _) as [response |]; [destruct (parse_text parse response) |];
        cbn; repeat split; assumption.
Qed.

Lemma Solar_state_invariant_witness :
  primaryGoal (comNeeds
    (step (step (step initial (ClickMode 1)) (ClickFacility 3))
          (RunCommercial decimal_toString sample_parse toronto unavailable)))
  = "cost-reduction".
Proof.
  apply Solar_state_invariant. do 3 apply reachable_step. apply reachable_initial.
Defined.

Lemma number_or_storable (n : number) : storable (number_or n posZero) = true.
Proof. now destruct n as [[] | | |]. Qed.

(** X10: the numbers the two inputs leave in the state are never NaN and
    never -0, in any state the component can reach: a stored monthly bill or
    square footage that is falsy is +0. *)
Theorem stored_numbers_storable (st : State) :
  reachable st ->
  storable (monthlyBill (resNeeds st)) = true /\
  storable (squareFootage (comNeeds st)) = true /\
  (number_truthy (monthlyBill (resNeeds st)) = false -> monthlyBill (resNeeds st) = posZero) /\
  (number_truthy (squareFootage (comNeeds st)) = false ->
   squareFootage (comNeeds st) = posZero).
Proof.
  intros Hreach.
  assert (Hstorable : storable (monthlyBill (resNeeds st)) = true /\
                      storable (squareFootage (comNeeds st)) = true).
  { induction Hreach as [| st a Hreach [IHbill IHfootage]].
    - split; reflexivity.
    - destruct a as [i | text | text | i | i | location service
                     | toString parse location ai]; cbn [step].
      + destruct (modeButtons !! i); split; assumption.
      + split; [apply number_or_storable | exact IHfootage].
      + split; [exact IHbill | apply number_or_storable].
      + destruct (priorityButtons !! i); split; assumption.
      + destruct (facilityButtons !! i); split; assumption.
      + rewrite handleResidentialConsult_cases.
        destruct (service (resNeeds st) location); split; assumption.
      + rewrite handleCommercialConsult_cases.
        destruct (ai _) as [response |]; [destruct (parse_text parse response) |];
          split; assumption. }
  destruct Hstorable as [Hbill Hfootage]. repeat split; try assumption.
  - intros Hfalsy.
    destruct (monthlyBill (resNeeds st)) as [[] | | |]; cbn in *;
      first [reflexivity | discriminate].
  - intros Hfalsy.
    destruct (squareFootage (comNeeds st)) as [[] | | |]; cbn in *;
      first [reflexivity | discriminate].
Qed.

Lemma stored_numbers_storable_witness :
  storable (monthlyBill (resNeeds (step initial (InputMonthlyBill "-0")))) = true.
Proof.
  apply stored_numbers_storable. apply reachable_step, reachable_initial.
Defined.

End MoreSolarFacts.

(** ** The number inputs, the labels and the result panel *)

Section MoreInputFacts.
Import Solar SolarSpec MoreSpec.

Lemma leading_digits_stop (ds : string) (c : ascii) (rest : string) :
  is_decimal_digit c = false ->
  leading_digits 10 (ds ++ String c rest) = leading_digits 10 ds.
Proof.
  intros Hc. induction ds as [| d ds IH].
  - change (EmptyString ++ String c rest) with (String c rest).
    destruct c as [[] [] [] [] [] [] [] []]; vm_compute in Hc;
      first [discriminate Hc | reflexivity].
  - change (String d ds ++ String c rest) with (String d (ds ++ String c rest)).
    cbn [leading_digits]. now rewrite IH.
Qed.

Lemma parseInt_decimal_head (d : ascii) (t : string) :
  is_decimal_digit d = true ->
  match t with
  | String c _ => negb (Ascii.eqb d "0") || negb (Ascii.eqb c "x" || Ascii.eqb c "X") = true
  | EmptyString => True
  end ->
  parseInt (String d t) =
  match leading_digits 10 (String d t) with
  | [] => NaN
  | ds =>
      let mathInt := Z.of_N (digits_value 10 ds) in
      if (mathInt =? 0)%Z then S754_zero false else of_Z mathInt
  end.
Proof.
  intros Hd Ht.
  destruct d as [[] [] [] [] [] [] [] []]; vm_compute in Hd; try discriminate Hd;
    try reflexivity.
  destruct t as [| c t]; [reflexivity |].
  destruct c as [[] [] [] [] [] [] [] []]; vm_compute in Ht; try discriminate Ht;
    reflexivity.
Qed.

Lemma decimal_digit_not_x (c : ascii) :
  is_decimal_digit c = true -> Ascii.eqb c "x" || Ascii.eqb c "X" = false.
Proof.
  intros Hc.
  destruct c as [[] [] [] [] [] [] [] []]; vm_compute in Hc; try discriminate Hc;
    reflexivity.
Qed.

Lemma parseInt_stops_at_non_digit (d : ascii) (ds : string) (c : ascii) (rest : string) :
  all_decimal_digits (String d ds) = true ->
  is_decimal_digit c = false ->
  Ascii.eqb c "x" || Ascii.eqb c "X" = false ->
  parseInt (String d ds ++ String c rest) = parseInt (String d ds).
Proof.
  intros Hdigits Hc Hx.
  cbn [all_decimal_digits] in Hdigits. apply andb_prop in Hdigits as [Hd Hds].
  change (String d ds ++ String c rest) with (String d (ds ++ String c rest)).
  rewrite !parseInt_decimal_head; try assumption.
  - change (String d (ds ++ String c rest)) with (String d ds ++ String c rest).
    now rewrite leading_digits_stop.
  - destruct ds as [| d2 ds]; [exact I |].
    cbn [all_decimal_digits] in Hds. apply andb_prop in Hds as [Hd2 _].
    rewrite (decimal_digit_not_x _ Hd2). apply orb_true_r.
  - destruct ds as [| d2 ds].
    + change (EmptyString ++ String c rest) with (String c rest). cbn beta iota.
      rewrite Hx. apply orb_true_r.
    + change (String d2 ds ++ String c rest) with (String d2 (ds ++ String c rest)).
      cbn [all_decimal_digits] in Hds. apply andb_prop in Hds as [Hd2 _].
      cbn beta iota. rewrite (decimal_digit_not_x _ Hd2). apply orb_true_r.
Qed.

(** X11: the two number inputs keep the leading integer of what is typed.
    For a text that starts with decimal digits followed by a code unit that
    is neither a decimal digit nor [x] or [X] (a decimal point, an exponent
    mark, a unit), the value stored is the one stored for the digits alone,
    whatever follows. *)
Theorem inputs_keep_leading_integer
    (d : ascii) (ds : string) (c : ascii) (rest : string) (st : State) :
  all_decimal_digits (String d ds) = true ->
  is_decimal_digit c = false ->
  Ascii.eqb c "x" || Ascii.eqb c "X" = false ->
  onMonthlyBillChange (String d ds ++ String c rest) st =
    onMonthlyBillChange (String d ds) st /\
  onSquareFootageChange (String d ds ++ String c rest) st =
    onSquareFootageChange (String d ds) st.
Proof.
  intros Hdigits Hc Hx. unfold onMonthlyBillChange, onSquareFootageChange.
  now rewrite (parseInt_stops_at_non_digit _ _ _ rest Hdigits Hc Hx).
Qed.

Lemma inputs_keep_leading_integer_witness :
  onMonthlyBillChange "249.99" initial = onMonthlyBillChange "249" initial.
Proof.
  apply (inputs_keep_leading_integer "2" "49" "." "99" initial); reflexivity.
Defined.

End MoreInputFacts.

Section MoreDisplayFacts.
Import ADU Solar SolarSpec MoreSpec Display.

Lemma before_first_dash_cons (c : ascii) (rest : string) :
  before_first_dash (String c rest) =
  if Ascii.eqb c "-" then EmptyString else String c (before_first_dash rest).
Proof.
  unfold before_first_dash. rewrite index_dash_cons.
  destruct (Ascii.eqb c "-"); [reflexivity |].
  now destruct (String.index 0 "-" rest).
Qed.

Lemma after_first_dash_cons (c : ascii) (rest : string) :
  after_first_dash (String c rest) =
  if Ascii.eqb c "-" then rest else after_first_dash rest.
Proof.
  unfold after_first_dash. rewrite index_dash_cons.
  destruct (Ascii.eqb c "-").
  - simpl. rewrite Nat.sub_0_r. apply substring_all.
  - now destruct (String.index 0 "-" rest).
Qed.

Lemma includes_dash_append (a b : string) :
  includes (a ++ b) "-" = includes a "-" || includes b "-".
Proof.
  induction a as [| c a IH].
  - reflexivity.
  - change (String c a ++ b) with (String c (a ++ b)).
    rewrite !includes_dash_cons, IH. apply orb_assoc.
Qed.

Lemma before_first_dash_clean (s : string) : includes (before_first_dash s) "-" = false.
Proof.
  induction s as [| c s IH]; [reflexivity |].
  rewrite before_first_dash_cons. destruct (Ascii.eqb c "-") eqn:Hc; [reflexivity |].
  now rewrite includes_dash_cons, Hc, IH.
Qed.

(** X12: the label of a facility button, [type.replace('-', ' ')], has the
    length of the type; a type without a dash is its own label, and in a
    type with dashes only the first one becomes a space: the label is the
    text before the first dash, a space, and the text after it, so the label
    still has a dash exactly when a second dash follows. *)
Theorem facilityLabel_replaces_first_dash (type : string) :
  String.length (facilityLabel type) = String.length type /\
  facilityLabel type =
    (if includes type "-"
     then before_first_dash type ++ " " ++ after_first_dash type
     else type) /\
  includes (facilityLabel type) "-" = includes (after_first_dash type) "-".
Proof.
  assert (Hshape : facilityLabel type =
                   if includes type "-"
                   then before_first_dash type ++ " " ++ after_first_dash type
                   else type).
  { unfold facilityLabel. induction type as [| c type IH]; [reflexivity |].
    cbn [replace]. rewrite includes_dash_cons, before_first_dash_cons, after_first_dash_cons.
    destruct (Ascii.eqb c "-"); [reflexivity |]. cbn [orb]. rewrite IH.
    now destruct (includes type "-"). }
  split; [| split; [exact Hshape |]].
  - clear Hshape. unfold facilityLabel. induction type as [| c type IH]; [reflexivity |].
    cbn [replace]. destruct (Ascii.eqb c "-"); simpl; [reflexivity | now rewrite IH].
  - rewrite Hshape. destruct (includes type "-") eqn:Hdash.
    + rewrite !includes_dash_append, before_first_dash_clean. reflexivity.
    + unfold after_first_dash, includes in *.
      now destruct (String.index 0 "-" type).
Qed.

(** X13: what the right-hand column of the solar section needs from the
    result.  With a policy link at hand, a falsy result gives the
    placeholder; a truthy result whose [recommendations] is an array gives
    the panel with exactly its items, its [roiEstimate] and its
    [estimatedCostRange]; and a truthy result whose [recommendations] is
    anything else makes the render throw a TypeError. *)
Theorem resultPanel_needs_recommendations_array
    (table : gmap string RegionalData) (location : UserLocation) (st : State)
    (link : option string) :
  Solar.policyLink table location = Normal link ->
  (ToBoolean (result st) = false -> resultPanel table location st = Normal Placeholder) /\
  (forall items,
     ToBoolean (result st) = true ->
     LocationSpec.field (result st) "recommendations" = VArray items ->
     resultPanel table location st =
     Normal (Insight items (regionName location) link (region location)
               (LocationSpec.field (result st) "roiEstimate")
               (LocationSpec.field (result st) "estimatedCostRange"))) /\
  (ToBoolean (result st) = true ->
   (forall items, LocationSpec.field (result st) "recommendations" <> VArray items) ->
   exists message, resultPanel table location st = Throw (TypeError message)).
Proof.
  intros Hlink. unfold resultPanel. rewrite Hlink. cbn [and_then].
  split; [| split].
  - now intros ->.
  - intros items -> Hitems. unfold LocationSpec.field in *.
    destruct (result st); cbn in *; try discriminate; try now rewrite Hitems.
  - intros -> Hnone. unfold LocationSpec.field in *.
    destruct (result st) as [| | b | n | s | elems | props]; cbn in *; eauto.
    destruct (default VUndefined (own_property props "recommendations")) eqn:Hrecs;
      cbn; eauto.
    now destruct (Hnone elems).
Qed.

Lemma resultPanel_needs_recommendations_array_witness :
  resultPanel sample_table toronto (setResult sample_consultation initial) =
  Normal (Insight [VString "Net-metering enrolment"] "Ontario"
            (Some "https://www.ontario.ca/page/add-second-unit-your-house") "ON"
            (VString "7 years") (VString "$210,000 - $260,000")).
Proof.
  destruct (resultPanel_needs_recommendations_array sample_table toronto
              (setResult sample_consultation initial)
              (Some "https://www.ontario.ca/page/add-second-unit-your-house") eq_refl)
    as (_ & Hshown & _).
  apply (Hshown [VString "Net-metering enrolment"]); reflexivity.
Defined.

(** X14: the answer of the completion endpoint is not checked against the
    schema that was requested.  When the call returns and the text parses,
    [handleCommercialConsult] ends normally and logs no error whatever the
    parsed value is; if that value is truthy and has no array of
    recommendations, the render that follows throws a TypeError, and if it
    is falsy the placeholder stays. *)
Theorem commercial_answer_is_not_validated
    (toString : number -> string) (parse : string -> completion value)
    (table : gmap string RegionalData) (location : UserLocation) (ai : endpoint)
    (st : State) (response : GenerateContentResponse) (parsed : value)
    (link : option string) :
  ai (commercialRequest toString location (comNeeds st)) = Normal response ->
  parse_text parse response = Normal parsed ->
  Solar.policyLink table location = Normal link ->
  let run := handleCommercialConsult toString parse location ai st in
  returned run = Normal tt /\
  solar_errors (events run) = [] /\
  (ToBoolean parsed = false -> resultPanel table location (final run) = Normal Placeholder) /\
  (ToBoolean parsed = true ->
   (forall items, LocationSpec.field parsed "recommendations" <> VArray items) ->
   exists message, resultPanel table location (final run) = Throw (TypeError message)).
Proof.
  intros Hcall Hparse Hlink. cbn zeta.
  rewrite handleCommercialConsult_cases, Hcall, Hparse. cbn [returned events final].
  split; [reflexivity |]. split; [reflexivity |].
  unfold resultPanel. rewrite Hlink. cbn [and_then setLoading setResult result].
  split.
  - now intros ->.
  - intros -> Hnone. unfold LocationSpec.field in *.
    destruct parsed as [| | b | n | s | elems | props]; cbn in *; eauto.
    destruct (default VUndefined (own_property props "recommendations")) eqn:Hrecs;
      cbn; eauto.
    now destruct (Hnone elems).
Qed.

Lemma commercial_answer_is_not_validated_witness :
  exists message,
    resultPanel sample_table toronto
      (final (handleCommercialConsult decimal_toString parse_empty_object toronto
                (answering "{}") initial)) = Throw (TypeError message).
Proof.
  destruct (commercial_answer_is_not_validated decimal_toString parse_empty_object
              sample_table toronto (answering "{}") initial
              {| text := Some "{}" |} (VObject [])
              (Some "https://www.ontario.ca/page/add-second-unit-your-house")
              eq_refl eq_refl eq_refl) as (_ & _ & _ & Hthrows).
  apply Hthrows; [reflexivity | discriminate].
Defined.

(** X15: switching the mode discards the consultation on display.  After a
    click on a mode button the mode is the id of the button, both needs are
    as before and the column shows the placeholder; it still does after a
    commercial consultation whose call then fails. *)
Theorem mode_switch_clears_result
    (toString : number -> string) (parse : string -> completion value)
    (table : gmap string RegionalData) (location : UserLocation) (ai : endpoint)
    (st : State) (i : nat) (m : string) (link : option string) (e : exn) :
  modeButtons !! i = Some m ->
  Solar.policyLink table location = Normal link ->
  ai (commercialRequest toString location (comNeeds st)) = Throw e ->
  let switched := step st (ClickMode i) in
  mode switched = m /\
  resNeeds switched = resNeeds st /\
  comNeeds switched = comNeeds st /\
  resultPanel table location switched = Normal Placeholder /\
  resultPanel table location
    (final (handleCommercialConsult toString parse location ai switched))
  = Normal Placeholder.
Proof.
  intros Hbutton Hlink Hcall. cbn zeta. cbn [step]. rewrite Hbutton.
  repeat split.
  - unfold resultPanel. now rewrite Hlink.
  - rewrite handleCommercialConsult_cases. cbn [comNeeds setResult setMode].
    rewrite Hcall. unfold resultPanel. now rewrite Hlink.
Qed.

Lemma mode_switch_clears_result_witness :
  resultPanel sample_table toronto
    (step (setResult sample_consultation initial) (ClickMode 1)) = Normal Placeholder.
Proof.
  apply (mode_switch_clears_result decimal_toString sample_parse sample_table toronto
           unavailable (setResult sample_consultation initial) 1 "commercial"
           (Some "https://www.ontario.ca/page/add-second-unit-your-house")
           (Error "503 Service Unavailable")); reflexivity.
Defined.

Lemma trimStart_starts_clean (s : string) : starts_with_space (trimStart s) = false.
Proof.
  induction s as [| c s IH]; [reflexivity |].
  cbn [trimStart]. destruct (is_white_space c) eqn:Hc; [exact IH | cbn; exact Hc].
Qed.

Lemma trimEnd_ends_clean (s : string) : ends_with_space (trimEnd s) = false.
Proof.
  induction s as [| c s IH]; [reflexivity |].
  cbn [trimEnd]. destruct (trimEnd s) as [| k kept].
  - destruct (is_white_space c) eqn:Hc; [reflexivity | cbn; exact Hc].
  - exact IH.
Qed.

Lemma trimEnd_keeps_start (s : string) :
  starts_with_space s = false -> starts_with_space (trimEnd s) = false.
Proof.
  destruct s as [| c s]; [reflexivity |]. cbn [starts_with_space trimEnd]. intros Hc.
  destruct (trimEnd s); [rewrite Hc |]; exact Hc.
Qed.

Lemma trim_clean (s : string) :
  starts_with_space (trim s) = false /\ ends_with_space (trim s) = false.
Proof.
  unfold trim. split; [apply trimEnd_keeps_start, trimStart_starts_clean
                      | apply trimEnd_ends_clean].
Qed.

(** X16: a rental price with a dash is always rendered, as two values, and
    neither value starts or ends with white space, however the price is
    spaced around its dashes. *)
Theorem rental_range_values_are_trimmed (price : string) :
  includes price "-" = true ->
  exists first second,
    renderRentalPrice price = Normal (two_lines first second) /\
    starts_with_space first = false /\ ends_with_space first = false /\
    starts_with_space second = false /\ ends_with_space second = false.
Proof.
  intros Hdash. unfold renderRentalPrice, trimmed_part.
  rewrite Hdash, split_lookup_0, (split_lookup_1 _ Hdash). cbn [and_then].
  do 2 eexists. split; [reflexivity |].
  destruct (trim_clean (before_first_dash price)),
    (trim_clean (between_first_and_second_dash price)).
  repeat split; assumption.
Qed.

Lemma rental_range_values_are_trimmed_witness :
  exists first second,
    renderRentalPrice "  $1,800   -   $2,200  " = Normal (two_lines first second) /\
    starts_with_space first = false /\ ends_with_space first = false /\
    starts_with_space second = false /\ ends_with_space second = false.
Proof.
  apply rental_range_values_are_trimmed. reflexivity.
Defined.

(** X17: what is typed into the square-footage input reaches the prompt
    unchecked.  After the input changed, the one request of a commercial
    consultation carries the prompt built from the stored number and the
    facility type and goal as they were; for a text from which [parseInt]
    reads no truthy number (an empty field, letters, zero) that number is
    0. *)
Theorem typed_footage_reaches_prompt
    (toString : number -> string) (parse : string -> completion value)
    (location : UserLocation) (ai : endpoint) (st : State) (typed : string) :
  completion_requests
    (events (handleCommercialConsult toString parse location ai
               (step st (InputSquareFootage typed)))) =
  [ {| model := "gemini-3-flash-preview";
       contents :=
         interpolate prompt_text
           [ city location; region location; facilityType (comNeeds st);
             toString (if number_truthy (parseInt typed) then parseInt typed else posZero);
             primaryGoal (comNeeds st) ];
       config := {| responseMimeType := "application/json";
                    responseSchema := responseSchema_literal |} |} ].
Proof.
  rewrite handleCommercialConsult_cases.
  destruct (ai _) as [response |]; [destruct (parse_text parse response) |]; reflexivity.
Qed.

End MoreDisplayFacts.
